(** * ShapeNetBase: selector resolution and category-scoped sampling

    A shallow embedding of [pytorch3d/datasets/shapenet_base.py]
    (class [ShapeNetBase], methods [_handle_render_inputs] and
    [_sample_idxs_from_category]) together with the properties its
    specification states about them.

    Python integers are [Z], strings are [string], lists are [list], dicts
    are [gmap].  Exceptions, the warning log and the state of the random
    generator are threaded through a small state-and-error monad.  The
    sampler [torch.multinomial] belongs to an external library: it is a
    parameter of the development, constrained by the contract its
    documentation gives, and a tape-driven reference sampler shows that the
    contract can be met. *)

From Stdlib Require Import ZArith String Ascii List Lia DecimalString.
From stdpp Require Import gmap strings list fin_maps.

Open Scope Z_scope.

(** ** Python values and exceptions *)

(** The exceptions the module can raise, each with the text it carries.
    [ValueError] is what the specification calls NotFoundError (unknown
    model id) and InvalidArgumentError (length mismatch, unknown category);
    [IndexError] is its IndexOutOfRangeError. *)
Inductive exn : Type :=
  | ValueError (msg : string)
  | IndexError (msg : string)
  | KeyError (key : string)
  | RuntimeError (msg : string).

(** [str(z)], also what ["%d" % z] and ["%s" % z] print for an int. *)
Definition str_of_int (z : Z) : string :=
  NilZero.string_of_int (Z.to_int z).

(** [len(l)] as a Python int. *)
Definition len {A : Type} (l : list A) : Z := Z.of_nat (length l).

(** [l[i]] on a Python list: negative indices count from the end, anything
    outside [-len, len) raises [IndexError]. *)
Definition list_getitem {A : Type} (l : list A) (i : Z) : exn + A :=
  let j := if i <? 0 then len l + i else i in
  if j <? 0 then inl (IndexError "list index out of range")
  else match l !! Z.to_nat j with
       | Some x => inr x
       | None => inl (IndexError "list index out of range")
       end.

(** [l.index(x)]: position of the first occurrence, [ValueError] if none. *)
Fixpoint list_index (x : string) (l : list string) : exn + Z :=
  match l with
  | [] => inl (ValueError ("'" +:+ x +:+ "' is not in list"))
  | y :: l' =>
      if bool_decide (x = y) then inr 0
      else match list_index x l' with
           | inr i => inr (i + 1)
           | inl e => inl e
           end
  end.

(** [d[k]] on a dict: [KeyError] when the key is missing. *)
Definition dict_getitem {V : Type} (d : gmap string V) (k : string) : exn + V :=
  match d !! k with
  | Some v => inr v
  | None => inl (KeyError k)
  end.

(** [d.get(k, dflt)]. *)
Definition dict_get {V : Type} (d : gmap string V) (k : string) (dflt : V) : V :=
  default dflt (d !! k).

(** [d.values()], as the list of the stored values. *)
Definition dict_values {V : Type} (d : gmap string V) : list V :=
  (map_to_list d).*2.

(** ** [os.path.join] (POSIX flavour) *)

Definition startswith_sep (s : string) : bool :=
  match s with
  | String c _ => bool_decide (c = "/"%char)
  | EmptyString => false
  end.

Fixpoint endswith_sep (s : string) : bool :=
  match s with
  | EmptyString => false
  | String c EmptyString => bool_decide (c = "/"%char)
  | String _ s' => endswith_sep s'
  end.

(** One round of the loop of [posixpath.join]: an absolute component
    restarts the path, an empty path or one ending in the separator takes
    the component as it is, otherwise a separator is put in between. *)
Definition path_join_step (path b : string) : string :=
  if startswith_sep b then b
  else if bool_decide (path = "") || endswith_sep path then path +:+ b
  else path +:+ "/" +:+ b.

Definition path_join (a : string) (p : list string) : string :=
  fold_left path_join_step p a.

(** ** The dataset object *)

(** The attributes [__init__] sets up. *)
Record ShapeNetBase : Type := {
  synset_ids : list string;
  model_ids : list string;
  synset_inv : gmap string string;
  synset_starts : gmap string Z;
  synset_lens : gmap string Z;
  shapenet_dir : string;
  model_dir : string
}.

(** [__len__]: number of models in the loaded dataset. *)
Definition __len__ (self : ShapeNetBase) : Z := len (model_ids self).

(** A one-dimensional tensor: of indices, or of weights.  The only weights
    the module builds are ones, so integers stand for them too; element
    types ([int32], [int64], [float32]) are not modelled. *)
Abbreviation tensor := (list Z).

(** [torch.ones((n))]: [n] weights, all one; a negative size is refused. *)
Definition torch_ones (n : Z) : exn + tensor :=
  if n <? 0 then
    inl (RuntimeError ("Trying to create tensor with negative dimension "
                       +:+ str_of_int n +:+ ": [" +:+ str_of_int n +:+ "]"))
  else inr (repeat 1 (Z.to_nat n)).

(** ** Effects: exceptions, warnings, random state *)

Section Effects.

(** The state of the random generator. *)
Context {G : Type}.

(** What a call can change: the generator and the warnings issued. *)
Record world : Type := World { rng : G; warned : list string }.

(** A computation either raises or returns, and leaves a world behind. *)
Definition M (A : Type) : Type := world → (exn + A) * world.

Definition ret {A : Type} (a : A) : M A := λ w, (inr a, w).

Definition raise {A : Type} (e : exn) : M A := λ w, (inl e, w).

Definition bind {A B : Type} (m : M A) (k : A → M B) : M B :=
  λ w, match m w with
       | (inr a, w') => k a w'
       | (inl e, w') => (inl e, w')
       end.

(** A pure operation that may raise. *)
Definition lift {A : Type} (r : exn + A) : M A := λ w, (r, w).

(** [warnings.warn(msg)]: the message is logged, execution goes on. *)
Definition warn (msg : string) : M unit :=
  λ w, (inr tt, {| rng := rng w; warned := warned w ++ [msg] |}).

End Effects.

Arguments world : clear implicits.
Arguments M : clear implicits.

Declare Scope py_scope.
Delimit Scope py_scope with py.
Notation "x <~ m ;; k" := (bind m (λ x, k))
  (at level 100, m at next level, right associativity) : py_scope.
Notation "m ;;; k" := (bind m (λ _, k))
  (at level 100, right associativity) : py_scope.
Open Scope py_scope.

(** ** The external sampler and its contract *)

(** The type of [torch.multinomial(input, num_samples, replacement)]: from
    the weights, the number of draws and the replacement flag it returns a
    tensor of positions, or raises a [RuntimeError] with some text, and
    advances the generator. *)
Definition sampler (G : Type) : Type :=
  tensor → Z → bool → G → (string + tensor) * G.

(** All the positions of [ps] index a tensor of [n] weights. *)
Definition positions_in (n : Z) (ps : tensor) : Prop :=
  Forall (λ p, 0 ≤ p < n) ps.

(** The most weights [torch.multinomial] accepts: it refuses a distribution
    over more than [2^24] categories. *)
Definition max_categories : Z := 2 ^ 24.

(** The number of draws is a 64-bit signed integer: it must be below
    [2^63]. *)
Definition int64_bound : Z := 2 ^ 63.

(** What the documentation of [torch.multinomial] promises for positive
    weights, at most [max_categories] of them.  Without replacement at most
    as many draws as weights can be asked for, and the positions drawn are
    pairwise distinct; with replacement any positive number of draws below
    [int64_bound] can be asked for.  Either way there is one position per
    draw, each indexing a weight.  The contract says nothing of the calls
    outside these bounds (no draw asked for, no weight given, too many
    weights, a number of draws that does not fit 64 bits), and nothing of
    the distribution of the draws. *)
Record multinomial_contract {G : Type} (multinomial : sampler G) : Prop := {
  multinomial_without_replacement :
    ∀ (ws : tensor) (k : Z) (g : G),
      Forall (λ x, 0 < x) ws → len ws ≤ max_categories →
      1 ≤ k ≤ len ws →
      ∃ ps g', multinomial ws k false g = (inr ps, g')
               ∧ len ps = k ∧ NoDup ps ∧ positions_in (len ws) ps;
  multinomial_with_replacement :
    ∀ (ws : tensor) (k : Z) (g : G),
      Forall (λ x, 0 < x) ws → 1 ≤ len ws ≤ max_categories →
      1 ≤ k < int64_bound →
      ∃ ps g', multinomial ws k true g = (inr ps, g')
               ∧ len ps = k ∧ positions_in (len ws) ps
}.

(** ** The methods of [ShapeNetBase] *)

Section Methods.

Context {G : Type}.
Variable multinomial : sampler G.

(** The call [torch.multinomial(...)] inside the monad: the generator is
    advanced, warnings are untouched. *)
Definition torch_multinomial (input : tensor) (num_samples : Z)
    (replacement : bool) : M G tensor :=
  λ w, let '(r, g') := multinomial input num_samples replacement (rng w) in
       (match r with
        | inr positions => inr positions
        | inl msg => inl (RuntimeError msg)
        end,
        {| rng := g'; warned := warned w |}).

(** The flag of line 234. *)
Definition replacement (sample_num range_len : Z) : bool :=
  sample_num >? range_len.

(** The text of the warning of lines 244-250. *)
Definition replacement_msg (sample_num : Z) (category : option string)
    : string :=
  "Sample size " +:+ str_of_int sample_num
  +:+ " is larger than the number of objects in "
  +:+ match category with
      | Some c => "category " +:+ c
      | None => "all categories"
      end
  +:+ ", values sampled with replacement.".

Definition _sample_idxs_from_category (self : ShapeNetBase)
    (sample_num : Z) (category : option string) : M G tensor :=
  start <~ lift (match category with
                 | Some c => dict_getitem (synset_starts self) c
                 | None => inr 0
                 end) ;;
  range_len <~ lift (match category with
                     | Some c => dict_getitem (synset_lens self) c
                     | None => inr (__len__ self)
                     end) ;;
  let replacement := replacement sample_num range_len in
  ones <~ lift (torch_ones range_len) ;;
  drawn <~ torch_multinomial ones sample_num replacement ;;
  let sampled_idxs := (λ p, p + start) <$> drawn in
  (if replacement then warn (replacement_msg sample_num category)
   else ret tt) ;;;
  ret sampled_idxs.

(** *** The four branches of [_handle_render_inputs] *)

(** [x is not None and len(x) > 0]. *)
Definition supplied {A : Type} (x : option (list A)) : bool :=
  match x with
  | Some (_ :: _) => true
  | _ => false
  end.

Definition not_found_msg (model_id : string) : string :=
  "model_id " +:+ model_id +:+ " not found in the loaded dataset.".

(** Lines 158-164: the loop over the requested model ids, [idxs] being
    the list built so far. *)
Fixpoint idxs_of_model_ids (self : ShapeNetBase) (ids : list string)
    (idxs : list Z) : M G (list Z) :=
  match ids with
  | [] => ret idxs
  | model_id :: ids' =>
      if bool_decide (model_id ∈ model_ids self) then
        i <~ lift (list_index model_id (model_ids self)) ;;
        idxs_of_model_ids self ids' (idxs ++ [i])
      else raise (ValueError (not_found_msg model_id))
  end.

Definition length_mismatch_msg : string :=
  "categories and sample_nums needs to be of the same length or "
  +:+ "sample_nums needs to be of length 1.".

Definition unknown_category_msg (category : string) : string :=
  "Category " +:+ category +:+ " is not in the loaded dataset.".

(** Line 178: a label is replaced by its synset, anything else stands for
    itself. *)
Definition resolve_category (self : ShapeNetBase) (token : string)
    : string :=
  dict_get (synset_inv self) token token.

(** Line 179: the synsets the dataset knows. *)
Definition known_synset (self : ShapeNetBase) (category : string) : bool :=
  bool_decide (category ∈ dict_values (synset_inv self)).

(** Lines 177-188: the loop [for i in range(len(categories))], run over
    the remaining values [range_i] of [i], with [idxs_tensor] the tensor
    accumulated so far. *)
Fixpoint idxs_of_categories (self : ShapeNetBase) (categories : list string)
    (sample_nums : list Z) (range_i : list nat) (idxs_tensor : tensor)
    : M G tensor :=
  match range_i with
  | [] => ret idxs_tensor
  | i :: range_i' =>
      token <~ lift (list_getitem categories (Z.of_nat i)) ;;
      let category := resolve_category self token in
      if known_synset self category then
        sample_num <~ lift (if len sample_nums >? 1
                            then list_getitem sample_nums (Z.of_nat i)
                            else list_getitem sample_nums 0) ;;
        sampled_idxs <~ _sample_idxs_from_category self sample_num
                          (Some category) ;;
        idxs_of_categories self categories sample_nums range_i'
          (idxs_tensor ++ sampled_idxs)
      else raise (ValueError (unknown_category_msg category))
  end.

(** Lines 169-189: the branch taken when categories are supplied. *)
Definition by_categories (self : ShapeNetBase) (categories : list string)
    (sample_nums : option (list Z)) : M G (list Z) :=
  let sample_nums := match sample_nums with
                     | None => [1]
                     | Some s => s
                     end in
  if negb (bool_decide (len categories = len sample_nums))
     && negb (bool_decide (len sample_nums = 1))
  then raise (ValueError length_mismatch_msg)
  else idxs_of_categories self categories sample_nums
         (seq 0 (length categories)) [].

Definition out_of_bounds_msg (self : ShapeNetBase) : string :=
  "One or more idx values are out of bounds. Indices need to be"
  +:+ "between 0 and " +:+ str_of_int (len (model_ids self) - 1) +:+ ".".

(** Lines 192-196: the branch taken when indices are supplied. *)
Definition by_idxs (self : ShapeNetBase) (idxs : list Z) : M G (list Z) :=
  if existsb (λ idx, (idx <? 0) || (idx >=? len (model_ids self))) idxs
  then raise (IndexError (out_of_bounds_msg self))
  else ret idxs.

Definition several_counts_msg (first : Z) : string :=
  "More than one sample sizes specified, now sampling "
  +:+ str_of_int first +:+ " models from the dataset.".

(** Lines 201-208: the branch taken when nothing else is supplied. *)
Definition by_default (self : ShapeNetBase) (sample_nums : option (list Z))
    : M G (list Z) :=
  let sample_nums := match sample_nums with
                     | None => [1]
                     | Some s => s
                     end in
  (if len sample_nums >? 1 then
     first <~ lift (list_getitem sample_nums 0) ;;
     warn (several_counts_msg first)
   else ret tt) ;;;
  first <~ lift (list_getitem sample_nums 0) ;;
  _sample_idxs_from_category self first None.

(** Lines 209-217: the path of one model, and the list comprehension
    over the resolved indices. *)
Definition model_path (self : ShapeNetBase) (idx : Z) : M G string :=
  synset_id <~ lift (list_getitem (synset_ids self) idx) ;;
  model_id <~ lift (list_getitem (model_ids self) idx) ;;
  ret (path_join (shapenet_dir self) [synset_id; model_id; model_dir self]).

Fixpoint model_paths (self : ShapeNetBase) (idxs : list Z)
    : M G (list string) :=
  match idxs with
  | [] => ret []
  | idx :: idxs' =>
      p <~ model_path self idx ;;
      ps <~ model_paths self idxs' ;;
      ret (p :: ps)
  end.

(** The indices a request selects: the [if]/[elif]/[elif]/[else] of
    lines 157-208. *)
Definition selected_idxs (self : ShapeNetBase)
    (model_ids categories : option (list string))
    (sample_nums idxs : option (list Z)) : M G (list Z) :=
  if supplied model_ids then
    idxs_of_model_ids self (default [] model_ids) []
  else if supplied categories then
    by_categories self (default [] categories) sample_nums
  else if supplied idxs then
    by_idxs self (default [] idxs)
  else by_default self sample_nums.

Definition _handle_render_inputs (self : ShapeNetBase)
    (model_ids categories : option (list string))
    (sample_nums idxs : option (list Z)) : M G (list string) :=
  idxs <~ selected_idxs self model_ids categories sample_nums idxs ;;
  model_paths self idxs.

End Methods.

Arguments multinomial_without_replacement {G multinomial} _ _ _ _ _ _ _.
Arguments multinomial_with_replacement {G multinomial} _ _ _ _ _ _ _.

(** The window [_sample_idxs_from_category] draws from: the whole dataset
    when no category is given, the run of the category otherwise. *)
Inductive has_window (self : ShapeNetBase) : option string → Z → Z → Prop :=
  | window_all :
      has_window self None 0 (__len__ self)
  | window_category (c : string) (start range_len : Z) :
      synset_starts self !! c = Some start →
      synset_lens self !! c = Some range_len →
      has_window self (Some c) start range_len.

(** The indices of a window. *)
Definition idxs_in (start range_len : Z) (idxs : tensor) : Prop :=
  Forall (λ i, start ≤ i < start + range_len) idxs.

(** Index [i] is a position of [model_id] in the catalog. *)
Definition names_model (self : ShapeNetBase) (model_id : string) (i : Z)
    : Prop :=
  0 ≤ i < len (model_ids self) ∧ model_ids self !! Z.to_nat i = Some model_id.

(** Index [i] lies in [0, N). *)
Definition valid_idx (self : ShapeNetBase) (i : Z) : Prop :=
  0 ≤ i < len (model_ids self).

(** The path of the model at index [idx]: the join of the root directory,
    its synset id, its model id and the file name. *)
Definition path_of (self : ShapeNetBase) (idx : Z) : string :=
  path_join (shapenet_dir self)
    [nth (Z.to_nat idx) (synset_ids self) "";
     nth (Z.to_nat idx) (model_ids self) "";
     model_dir self].

(** ** The other methods, and what their properties are stated with *)

(** [__init__] (lines 27-37): the attributes of a freshly constructed
    object. *)
Definition __init__ : ShapeNetBase := {|
  synset_ids := [];
  model_ids := [];
  synset_inv := ∅;
  synset_starts := ∅;
  synset_lens := ∅;
  shapenet_dir := "";
  model_dir := "model.obj"
|}.

(** [_get_item_ids] (lines 60-75): the dict of the two ids of the model at
    [idx], built key by key; either list lookup can raise. *)
Definition _get_item_ids (self : ShapeNetBase) (idx : Z)
    : exn + gmap string string :=
  let model : gmap string string := ∅ in
  match list_getitem (synset_ids self) idx with
  | inl e => inl e
  | inr synset_id =>
      let model := <["synset_id" := synset_id]> model in
      match list_getitem (model_ids self) idx with
      | inl e => inl e
      | inr model_id => inr (<["model_id" := model_id]> model)
      end
  end.

(** The count line 184 picks for the category at position [i]. *)
Definition count_for (sample_nums : list Z) (i : nat) : exn + Z :=
  if len sample_nums >? 1
  then list_getitem sample_nums (Z.of_nat i)
  else list_getitem sample_nums 0.

(** The index tables agree with the catalog: the window of a synset lies
    in the catalog and holds models of that synset only. *)
Definition window_consistent (self : ShapeNetBase) : Prop :=
  ∀ c start range_len i,
    synset_starts self !! c = Some start →
    synset_lens self !! c = Some range_len →
    start ≤ i < start + range_len →
    0 ≤ i ∧ synset_ids self !! Z.to_nat i = Some c.

(** The category at position [i] of a request can be sampled: it has a
    count of at least one that fits 64 bits, its synset is known and has a
    non-empty window of at most [max_categories] indices. *)
Definition samplable (self : ShapeNetBase) (sample_nums : list Z) (i : nat)
    (token : string) : Prop :=
  ∃ k start range_len,
    count_for sample_nums i = inr k ∧ 1 ≤ k < int64_bound
    ∧ known_synset self (resolve_category self token) = true
    ∧ has_window self (Some (resolve_category self token)) start range_len
    ∧ 1 ≤ range_len ≤ max_categories.

(** [block] is a draw for the category at position [i]: as many indices as
    its count, all in the window of its synset. *)
Definition block_of (self : ShapeNetBase) (sample_nums : list Z) (i : nat)
    (token : string) (block : tensor) : Prop :=
  ∃ start range_len,
    count_for sample_nums i = inr (len block)
    ∧ has_window self (Some (resolve_category self token)) start range_len
    ∧ idxs_in start range_len block.

(** ** A reference sampler *)

(** A sampler whose generator is a tape of raw draws, read one per
    position drawn.  It plays the part of [torch.multinomial] for uniform
    weights and shows that the contract above can be met. *)

(** Draw [k] positions from [pool], taking each drawn one out. *)
Fixpoint draw_distinct (pool : list Z) (k : nat) (tape : list nat)
    : list Z * list nat :=
  match k, pool with
  | S k', _ :: _ =>
      let r := (hd 0%nat tape `mod` length pool)%nat in
      let '(ps, tape') := draw_distinct (delete r pool) k' (tl tape) in
      (default 0 (pool !! r) :: ps, tape')
  | _, _ => ([], tape)
  end.

(** Draw [k] positions below [n], each on its own. *)
Fixpoint draw_repeated (n : nat) (k : nat) (tape : list nat)
    : list Z * list nat :=
  match k with
  | O => ([], tape)
  | S k' =>
      let '(ps, tape') := draw_repeated n k' (tl tape) in
      (Z.of_nat (hd 0%nat tape `mod` n)%nat :: ps, tape')
  end.

Definition tape_multinomial : sampler (list nat) :=
  λ ws k replacement tape,
    if k <=? 0 then
      (inl "cannot sample n_sample <= 0 samples", tape)
    else if replacement then
      if bool_decide (ws = []) then
        (inl "invalid multinomial distribution", tape)
      else
        let '(ps, tape') := draw_repeated (length ws) (Z.to_nat k) tape in
        (inr ps, tape')
    else if len ws <? k then
      (inl "cannot sample n_sample > prob_dist.size(-1) samples without replacement",
       tape)
    else
      let '(ps, tape') := draw_distinct (seqZ 0 (len ws)) (Z.to_nat k) tape in
      (inr ps, tape').

(** The reference sampler with the limit [torch.multinomial] puts on the
    number of categories. *)
Definition capped_multinomial : sampler (list nat) :=
  λ ws k replacement tape,
    if len ws >? max_categories then
      (inl "number of categories cannot exceed 2^24", tape)
    else tape_multinomial ws k replacement tape.

(** ** A small dataset *)

(** Five chairs at indices 0 to 4 and three tables at indices 5 to 7. *)
Definition demo : ShapeNetBase := {|
  synset_ids := ["03001627"; "03001627"; "03001627"; "03001627"; "03001627";
                 "04379243"; "04379243"; "04379243"];
  model_ids := ["c0"; "c1"; "c2"; "c3"; "c4"; "t0"; "t1"; "t2"];
  synset_inv := {[ "chair" := "03001627"; "table" := "04379243" ]};
  synset_starts := {[ "03001627" := 0; "04379243" := 5 ]};
  synset_lens := {[ "03001627" := 5; "04379243" := 3 ]};
  shapenet_dir := "/data/ShapeNetCore";
  model_dir := "model.obj"
|}.

(** A catalog where the model id "m" is both a chair and a table. *)
Definition demo_twice : ShapeNetBase := {|
  synset_ids := ["03001627"; "04379243"; "04379243"];
  model_ids := ["m"; "n"; "m"];
  synset_inv := {[ "chair" := "03001627"; "table" := "04379243" ]};
  synset_starts := {[ "03001627" := 0; "04379243" := 1 ]};
  synset_lens := {[ "03001627" := 1; "04379243" := 2 ]};
  shapenet_dir := "";
  model_dir := "model.obj"
|}.

(** The small dataset with the tables left out of the index tables. *)
Definition demo_no_tables : ShapeNetBase := {|
  synset_ids := synset_ids demo;
  model_ids := model_ids demo;
  synset_inv := synset_inv demo;
  synset_starts := {[ "03001627" := 0 ]};
  synset_lens := {[ "03001627" := 5 ]};
  shapenet_dir := shapenet_dir demo;
  model_dir := model_dir demo
|}.

(** A catalog with one model, whose id is an absolute path. *)
Definition demo_absolute : ShapeNetBase := {|
  synset_ids := ["03001627"];
  model_ids := ["/tmp/mesh"];
  synset_inv := {[ "chair" := "03001627" ]};
  synset_starts := {[ "03001627" := 0 ]};
  synset_lens := {[ "03001627" := 1 ]};
  shapenet_dir := "/data/ShapeNetCore";
  model_dir := "model.obj"
|}.

(** A dataset of [n] chairs. *)
Definition demo_chairs (n : nat) : ShapeNetBase := {|
  synset_ids := replicate n "03001627";
  model_ids := replicate n "m";
  synset_inv := {[ "chair" := "03001627" ]};
  synset_starts := {[ "03001627" := 0 ]};
  synset_lens := {[ "03001627" := Z.of_nat n ]};
  shapenet_dir := "/data/ShapeNetCore";
  model_dir := "model.obj"
|}.

(** One model more than the sampler takes weights. *)
Definition too_many : nat := Z.to_nat (max_categories + 1).

(** A world to start from: a tape of draws and no warning yet. *)
Definition demo_world : world (list nat) :=
  {| rng := [7; 1; 4; 12; 3; 9; 2; 5; 8; 6; 11; 10]%nat; warned := [] |}.

(** ** Running computations *)

Section Running.

Context {G : Type}.
Implicit Types w : world G.

Lemma bind_inr {A B : Type} (m : M G A) (k : A → M G B) w a w' :
  m w = (inr a, w') → bind m k w = k a w'.
Proof. intros Hm. unfold bind. by rewrite Hm. Qed.

Lemma bind_inl {A B : Type} (m : M G A) (k : A → M G B) w e w' :
  m w = (inl e, w') → bind m k w = (inl e, w').
Proof. intros Hm. unfold bind. by rewrite Hm. Qed.

Lemma bind_lift {A B : Type} (r : exn + A) (k : A → M G B) w :
  bind (lift r) k w = match r with
                      | inr a => k a w
                      | inl e => (inl e, w)
                      end.
Proof. unfold bind, lift. by destruct r. Qed.

Lemma bind_ret {A B : Type} (a : A) (k : A → M G B) w :
  bind (ret a) k w = k a w.
Proof. reflexivity. Qed.

Lemma bind_assoc {A B C : Type} (m : M G A) (k : A → M G B)
    (h : B → M G C) w :
  bind (bind m k) h w = bind m (λ a, bind (k a) h) w.
Proof. unfold bind. destruct (m w) as [[e|a] w']; reflexivity. Qed.

End Running.

(** Take the next step of a run of [bind] from the run [H] of its first
    computation. *)
Ltac run_bind H :=
  first [ rewrite !(bind_inr _ _ _ _ _ H)
        | rewrite !(bind_inl _ _ _ _ _ H) ].

(** ** Python lists and dicts *)

Lemma len_fmap {A B : Type} (f : A → B) (l : list A) : len (f <$> l) = len l.
Proof. unfold len. by rewrite length_fmap. Qed.

Lemma list_getitem_lookup {A : Type} (l : list A) (i : nat) (x : A) :
  l !! i = Some x → list_getitem l (Z.of_nat i) = inr x.
Proof.
  intros Hx. unfold list_getitem.
  destruct (Z.ltb_spec (Z.of_nat i) 0) as [?|_]; [lia|].
  destruct (Z.ltb_spec (Z.of_nat i) 0) as [?|_]; [lia|].
  by rewrite Nat2Z.id, Hx.
Qed.

Lemma list_getitem_in_range {A : Type} (l : list A) (i : Z) :
  0 ≤ i < len l →
  ∃ x, list_getitem l i = inr x ∧ l !! Z.to_nat i = Some x.
Proof.
  intros [Hlo Hhi]. unfold len in Hhi.
  destruct (lookup_lt_is_Some_2 l (Z.to_nat i)) as [x Hx]; [lia|].
  exists x. split; [|done].
  rewrite <- (Z2Nat.id i) by done. by apply list_getitem_lookup.
Qed.

Lemma list_getitem_not_ValueError {A : Type} (l : list A) (i : Z) msg :
  list_getitem l i ≠ inl (ValueError msg).
Proof.
  unfold list_getitem. repeat case_match; congruence.
Qed.

Lemma list_index_elem (x : string) (l : list string) :
  x ∈ l →
  ∃ i, list_index x l = inr i ∧ 0 ≤ i < len l
       ∧ l !! Z.to_nat i = Some x
       ∧ ∀ j, (j < Z.to_nat i)%nat → l !! j ≠ Some x.
Proof.
  induction l as [|y l IH]; intros Hin.
  - by apply elem_of_nil in Hin.
  - cbn [list_index]. case_bool_decide as Hxy.
    + subst y. exists 0. unfold len. cbn. repeat split; try lia; done.
    + apply elem_of_cons in Hin as [?|Hin]; [done|].
      destruct (IH Hin) as (i & -> & Hi & Hl & Hfirst).
      exists (i + 1). unfold len in *. cbn [length].
      replace (Z.to_nat (i + 1)) with (S (Z.to_nat i)) by lia.
      repeat split; try lia; try done.
      intros [|j] Hj; cbn; [congruence|]. apply Hfirst. lia.
Qed.

Lemma known_synset_spec (self : ShapeNetBase) (category : string) :
  known_synset self category = true
  ↔ ∃ label, synset_inv self !! label = Some category.
Proof.
  unfold known_synset, dict_values. rewrite bool_decide_eq_true.
  rewrite list_elem_of_fmap. split.
  - intros ([label c] & -> & Hin). exists label.
    by apply elem_of_map_to_list in Hin.
  - intros [label Hl]. exists (label, category). split; [done|].
    by apply elem_of_map_to_list.
Qed.

(** ** The reference sampler meets the contract *)

Lemma delete_drawn (pool : list Z) (r : nat) (p : Z) :
  NoDup pool → pool !! r = Some p →
  (p ∉ delete r pool) ∧ NoDup (delete r pool) ∧ (delete r pool ⊆ pool)
  ∧ length pool = S (length (delete r pool)).
Proof.
  intros Hnd Hr.
  pose proof (take_drop_middle pool r p Hr) as Hpool.
  rewrite delete_take_drop. clear Hr. revert Hpool.
  generalize (take r pool) (drop (S r) pool). intros l1 l2 <-.
  apply NoDup_app in Hnd as (Hnd1 & Hdisj & Hnd2).
  apply NoDup_cons in Hnd2 as [Hp Hnd2].
  repeat split.
  - rewrite elem_of_app. intros [Hin|Hin]; [|done].
    apply (Hdisj p Hin). by left.
  - apply NoDup_app. repeat split; try done.
    intros x Hx Hx'. apply (Hdisj x Hx). by right.
  - intros x. rewrite !elem_of_app, elem_of_cons. tauto.
  - rewrite !length_app. cbn. lia.
Qed.

Lemma draw_distinct_spec (k : nat) (pool : list Z) (tape : list nat) :
  NoDup pool → (k ≤ length pool)%nat →
  let ps := (draw_distinct pool k tape).1 in
  length ps = k ∧ NoDup ps ∧ ps ⊆ pool.
Proof.
  revert pool tape. induction k as [|k IH]; intros pool tape Hnd Hk.
  - cbn. repeat split; [constructor | by intros x Hx%elem_of_nil].
  - destruct pool as [|p0 pool']; [cbn in Hk; lia|].
    set (pool := p0 :: pool') in *.
    cbn [draw_distinct]. fold pool.
    set (r := (hd 0%nat tape `mod` length pool)%nat).
    assert (Hr : (r < length pool)%nat)
      by (apply Nat.mod_upper_bound; subst pool; cbn; lia).
    destruct (lookup_lt_is_Some_2 pool r Hr) as [p Hp].
    destruct (delete_drawn pool r p Hnd Hp) as (Hfresh & Hnd' & Hsub & Hlen).
    specialize (IH (delete r pool) (tl tape) Hnd' ltac:(lia)).
    destruct (draw_distinct (delete r pool) k (tl tape)) as [ps tape'].
    cbn in IH. destruct IH as (IHlen & IHnd & IHsub).
    rewrite Hp. cbn. repeat split.
    + by rewrite IHlen.
    + apply NoDup_cons. split; [|done]. intros Hin. by apply Hfresh, IHsub.
    + intros x [->|Hx]%elem_of_cons.
      * by eapply list_elem_of_lookup_2.
      * by apply Hsub, IHsub.
Qed.

Lemma draw_repeated_spec (n k : nat) (tape : list nat) :
  (0 < n)%nat →
  let ps := (draw_repeated n k tape).1 in
  length ps = k ∧ Forall (λ p, 0 ≤ p < Z.of_nat n) ps.
Proof.
  intros Hn. revert tape. induction k as [|k IH]; intros tape.
  - cbn. by split.
  - cbn [draw_repeated]. specialize (IH (tl tape)).
    destruct (draw_repeated n k (tl tape)) as [ps tape']. cbn in *.
    destruct IH as [IHlen IHall]. split; [by rewrite IHlen|].
    constructor; [|done].
    pose proof (Nat.mod_upper_bound (hd 0%nat tape) n). lia.
Qed.

Lemma tape_multinomial_contract : multinomial_contract tape_multinomial.
Proof.
  split.
  - intros ws k tape _ _ [Hlo Hhi]. unfold tape_multinomial.
    destruct (Z.leb_spec k 0) as [?|_]; [lia|]. 
    destruct (Z.ltb_spec (len ws) k) as [?|_]; [lia|].
    pose proof (draw_distinct_spec (Z.to_nat k) (seqZ 0 (len ws)) tape
                  (NoDup_seqZ _ _)) as Hspec.
    rewrite length_seqZ in Hspec. specialize (Hspec ltac:(lia)).
    destruct (draw_distinct _ _ tape) as [ps tape']. cbn in Hspec.
    destruct Hspec as (Hlen & Hnd & Hsub).
    exists ps, tape'. repeat split; try done.
    + unfold len. rewrite Hlen. lia.
    + apply Forall_forall. intros p Hp%Hsub%elem_of_seqZ. lia.
  - intros ws k tape _ [Hws _] [Hk _]. unfold tape_multinomial.
    destruct (Z.leb_spec k 0) as [?|_]; [lia|].
    case_bool_decide as Hnil; [subst ws; unfold len in Hws; cbn in Hws; lia|].
    pose proof (draw_repeated_spec (length ws) (Z.to_nat k) tape) as Hspec.
    unfold len in Hws. specialize (Hspec ltac:(lia)).
    destruct (draw_repeated _ _ tape) as [ps tape']. cbn in Hspec.
    destruct Hspec as [Hlen Hall].
    exists ps, tape'. repeat split; try done.
    unfold len. rewrite Hlen. lia.
Qed.

(** ** Category-scoped sampling *)

Lemma torch_ones_weights (n : Z) :
  0 ≤ n →
  torch_ones n = inr (repeat 1 (Z.to_nat n))
  ∧ len (repeat 1 (Z.to_nat n)) = n
  ∧ Forall (λ x, 0 < x) (repeat 1 (Z.to_nat n)).
Proof.
  intros Hn. unfold torch_ones, len.
  destruct (Z.ltb_spec n 0) as [?|_]; [lia|].
  rewrite repeat_length. repeat split; [lia|].
  apply Forall_forall. intros x Hx%list_elem_of_In%repeat_spec. lia.
Qed.

Lemma shift_idxs_in (start range_len : Z) (positions : tensor) :
  positions_in range_len positions →
  idxs_in start range_len ((λ p, p + start) <$> positions).
Proof.
  unfold positions_in, idxs_in. intros Hin.
  apply Forall_fmap. eapply Forall_impl; [exact Hin|].
  cbn. intros p Hp. lia.
Qed.

Lemma shift_NoDup (start : Z) (positions : tensor) :
  NoDup positions → NoDup ((λ p, p + start) <$> positions).
Proof.
  intros Hnd.
  assert (Inj eq eq (λ p, p + start)) by (intros p q ?; lia).
  by apply NoDup_fmap_2.
Qed.

Section Sampling.

Context {G : Type}.
Variable multinomial : sampler G.
Implicit Types w : world G.

(** The whole of [_sample_idxs_from_category] on a window: one call of
    the sampler on uniform weights with the flag of line 234, the shift
    by the start of the window, and the warning when the flag is set. *)
Lemma sample_idxs_run (self : ShapeNetBase) (category : option string)
    (start range_len sample_num : Z) w :
  has_window self category start range_len → 0 ≤ range_len →
  _sample_idxs_from_category multinomial self sample_num category w =
    match multinomial (repeat 1 (Z.to_nat range_len)) sample_num
            (replacement sample_num range_len) (rng w) with
    | (inr positions, g') =>
        (inr ((λ p, p + start) <$> positions),
         {| rng := g';
            warned := warned w
                      ++ if replacement sample_num range_len
                         then [replacement_msg sample_num category]
                         else [] |})
    | (inl msg, g') =>
        (inl (RuntimeError msg), {| rng := g'; warned := warned w |})
    end.
Proof.
  intros Hwin Hlen.
  destruct (torch_ones_weights range_len Hlen) as (Hones & _ & _).
  unfold _sample_idxs_from_category.
  destruct Hwin as [|c start range_len Hs Hl]; unfold dict_getitem;
    [|rewrite Hs, Hl];
    rewrite bind_lift; cbn beta iota; rewrite bind_lift; cbn beta iota;
    rewrite bind_lift, Hones; unfold bind at 1; unfold torch_multinomial;
    destruct (multinomial _ _ _ _) as [[msg|positions] g']; try done;
    destruct (replacement _ _); cbn; by rewrite ?app_nil_r.
Qed.

Hypothesis contract : multinomial_contract multinomial.

(** The draw on a window that is large enough: one call of the sampler
    without replacement, nothing logged. *)
Lemma window_draw_distinct (self : ShapeNetBase)
    (category : option string) (start range_len count : Z) w :
  has_window self category start range_len →
  range_len ≤ max_categories →
  1 ≤ count ≤ range_len →
  ∃ positions g',
    multinomial (repeat 1 (Z.to_nat range_len)) count false (rng w)
      = (inr positions, g')
    ∧ len positions = count ∧ NoDup positions
    ∧ positions_in range_len positions
    ∧ _sample_idxs_from_category multinomial self count category w
      = (inr ((λ p, p + start) <$> positions),
         {| rng := g'; warned := warned w |}).
Proof.
  intros Hwin Hmax Hcount.
  destruct (torch_ones_weights range_len ltac:(lia)) as (_ & Hlen & Hpos).
  destruct (multinomial_without_replacement contract _ count (rng w) Hpos
              ltac:(lia) ltac:(lia))
    as (positions & g' & Hdraw & Hk & Hnd & Hin).
  rewrite Hlen in Hin. exists positions, g'.
  rewrite (sample_idxs_run self category start range_len) by (done || lia).
  assert (Hflag : replacement count range_len = false)
    by (unfold replacement; lia).
  by rewrite Hflag, Hdraw, app_nil_r.
Qed.

(** The draw on a window that is too small: one call of the sampler with
    replacement, and the warning. *)
Lemma window_draw_repeated (self : ShapeNetBase)
    (category : option string) (start range_len count : Z) w :
  has_window self category start range_len →
  range_len ≤ max_categories → count < int64_bound →
  1 ≤ range_len < count →
  ∃ positions g',
    multinomial (repeat 1 (Z.to_nat range_len)) count true (rng w)
      = (inr positions, g')
    ∧ len positions = count
    ∧ positions_in range_len positions
    ∧ _sample_idxs_from_category multinomial self count category w
      = (inr ((λ p, p + start) <$> positions),
         {| rng := g';
            warned := warned w ++ [replacement_msg count category] |}).
Proof.
  intros Hwin Hmax Hfits Hcount.
  destruct (torch_ones_weights range_len ltac:(lia)) as (_ & Hlen & Hpos).
  destruct (multinomial_with_replacement contract _ count (rng w) Hpos
              ltac:(lia) ltac:(lia)) as (positions & g' & Hdraw & Hk & Hin).
  rewrite Hlen in Hin. exists positions, g'.
  rewrite (sample_idxs_run self category start range_len) by (done || lia).
  assert (Hflag : replacement count range_len = true)
    by (unfold replacement; lia).
  by rewrite Hflag, Hdraw.
Qed.

(** C1 (amended). On a window of at most [2^24] indices, with
    [1 <= count <= range_len], the call
    [_sample_idxs_from_category(count, category)] returns: its result has
    exactly [count] indices, pairwise distinct, each in
    [start, start + range_len); they are the positions the sampler drew
    in [0, range_len) without replacement (flag [false], uniform
    weights), each shifted by [start]; no warning is issued. *)
Theorem sample_idxs_without_replacement (self : ShapeNetBase)
    (category : option string) (start range_len count : Z) w :
  has_window self category start range_len →
  range_len ≤ max_categories →
  1 ≤ count ≤ range_len →
  ∃ positions sampled_idxs w',
    _sample_idxs_from_category multinomial self count category w
      = (inr sampled_idxs, w')
    ∧ len sampled_idxs = count
    ∧ NoDup sampled_idxs
    ∧ idxs_in start range_len sampled_idxs
    ∧ multinomial (repeat 1 (Z.to_nat range_len)) count false (rng w)
        = (inr positions, rng w')
    ∧ NoDup positions
    ∧ positions_in range_len positions
    ∧ sampled_idxs = (λ p, p + start) <$> positions
    ∧ warned w' = warned w.
Proof.
  intros Hwin Hmax Hcount.
  destruct (window_draw_distinct self category start range_len count w
              Hwin Hmax Hcount)
    as (positions & g' & Hdraw & Hk & Hnd & Hin & Hrun).
  eexists positions, _, _. split; [exact Hrun|]. cbn.
  repeat split; try done.
  - by rewrite len_fmap.
  - by apply shift_NoDup.
  - by apply shift_idxs_in.
Qed.

(** C2 (amended). On a window with [1 <= range_len <= 2^24] and any
    [count] with [1 <= count < 2^63] the call
    returns exactly [count] indices of the window, drawn by the sampler
    with the replacement flag set exactly when [count > range_len].  When
    [count > range_len] (repeats allowed) the call still returns, and
    logs one warning that names the count and the category, or
    "all categories" when none is given; when [count <= range_len] it
    logs nothing and the indices are distinct. *)
Theorem sample_idxs_with_replacement (self : ShapeNetBase)
    (category : option string) (start range_len count : Z) w :
  has_window self category start range_len →
  1 ≤ range_len ≤ max_categories → 1 ≤ count < int64_bound →
  ∃ positions sampled_idxs w',
    _sample_idxs_from_category multinomial self count category w
      = (inr sampled_idxs, w')
    ∧ len sampled_idxs = count
    ∧ idxs_in start range_len sampled_idxs
    ∧ multinomial (repeat 1 (Z.to_nat range_len)) count
        (bool_decide (range_len < count)) (rng w)
        = (inr positions, rng w')
    ∧ sampled_idxs = (λ p, p + start) <$> positions
    ∧ (range_len < count
       ∧ warned w' = warned w ++ [replacement_msg count category]
       ∨ count ≤ range_len
         ∧ warned w' = warned w ∧ NoDup sampled_idxs)
    ∧ (replacement count range_len = true ↔ range_len < count)
    ∧ replacement_msg count category
      = "Sample size " +:+ str_of_int count
        +:+ " is larger than the number of objects in "
        +:+ match category with
            | Some c => "category " +:+ c
            | None => "all categories"
            end
        +:+ ", values sampled with replacement.".
Proof.
  intros Hwin Hlen Hcount.
  assert (Hflag : replacement count range_len = true ↔ range_len < count)
    by (unfold replacement; lia).
  destruct (decide (range_len < count)) as [Hbig|Hsmall].
  - destruct (window_draw_repeated self category start range_len count w
                Hwin ltac:(lia) ltac:(lia) ltac:(lia))
      as (positions & g' & Hdraw & Hk & Hin & Hrun).
    rewrite bool_decide_eq_true_2 by done.
    eexists positions, _, _. split; [exact Hrun|]. cbn [rng warned].
    split; [by rewrite len_fmap|]. split; [by apply shift_idxs_in|].
    split; [done|]. split; [done|]. split; [by left|]. by split.
  - destruct (window_draw_distinct self category start range_len count w
                Hwin ltac:(lia) ltac:(lia))
      as (positions & g' & Hdraw & Hk & Hnd & Hin & Hrun).
    rewrite bool_decide_eq_false_2 by done.
    eexists positions, _, _. split; [exact Hrun|]. cbn [rng warned].
    split; [by rewrite len_fmap|]. split; [by apply shift_idxs_in|].
    split; [done|]. split; [done|].
    split; [right; split; [lia|]; split; [done|by apply shift_NoDup]|].
    by split.
Qed.

End Sampling.

(** Sampling on the small dataset: three chairs out of five, without
    replacement. *)
Lemma sample_idxs_without_replacement_witness :
  multinomial_contract tape_multinomial
  ∧ has_window demo (Some "03001627") 0 5
  ∧ 5 ≤ max_categories
  ∧ 1 ≤ 3 ≤ 5
  ∧ ∃ positions sampled_idxs w',
      _sample_idxs_from_category tape_multinomial demo 3 (Some "03001627")
        demo_world = (inr sampled_idxs, w')
      ∧ len sampled_idxs = 3
      ∧ NoDup sampled_idxs
      ∧ idxs_in 0 5 sampled_idxs
      ∧ tape_multinomial (repeat 1 (Z.to_nat 5)) 3 false (rng demo_world)
          = (inr positions, rng w')
      ∧ NoDup positions
      ∧ positions_in 5 positions
      ∧ sampled_idxs = (λ p, p + 0) <$> positions
      ∧ warned w' = warned demo_world.
Proof.
  assert (Hwin : has_window demo (Some "03001627") 0 5)
    by (by constructor).
  assert (Hmax : 5 ≤ max_categories) by (unfold max_categories; lia).
  assert (Hcount : 1 ≤ 3 ≤ 5) by lia.
  split; [exact tape_multinomial_contract|].
  split; [exact Hwin|]. split; [exact Hmax|]. split; [exact Hcount|].
  exact (sample_idxs_without_replacement tape_multinomial
           tape_multinomial_contract demo (Some "03001627") 0 5 3 demo_world
           Hwin Hmax Hcount).
Defined.

(** Ten tables out of three: the draws repeat and a warning is logged. *)
Lemma sample_idxs_with_replacement_witness :
  multinomial_contract tape_multinomial
  ∧ has_window demo (Some "04379243") 5 3
  ∧ 1 ≤ 3 ≤ max_categories ∧ 1 ≤ 10 < int64_bound
  ∧ ∃ positions sampled_idxs w',
      _sample_idxs_from_category tape_multinomial demo 10 (Some "04379243")
        demo_world = (inr sampled_idxs, w')
      ∧ len sampled_idxs = 10
      ∧ idxs_in 5 3 sampled_idxs
      ∧ tape_multinomial (repeat 1 (Z.to_nat 3)) 10
          (bool_decide (3 < 10)) (rng demo_world)
          = (inr positions, rng w')
      ∧ sampled_idxs = (λ p, p + 5) <$> positions
      ∧ (3 < 10
         ∧ warned w'
           = warned demo_world ++ [replacement_msg 10 (Some "04379243")]
         ∨ 10 ≤ 3
           ∧ warned w' = warned demo_world ∧ NoDup sampled_idxs)
      ∧ (replacement 10 3 = true ↔ 3 < 10)
      ∧ replacement_msg 10 (Some "04379243")
        = "Sample size " +:+ str_of_int 10
          +:+ " is larger than the number of objects in "
          +:+ ("category " +:+ "04379243")
          +:+ ", values sampled with replacement.".
Proof.
  assert (Hwin : has_window demo (Some "04379243") 5 3)
    by (by constructor).
  assert (Hlen : 1 ≤ 3 ≤ max_categories) by (unfold max_categories; lia).
  assert (Hcount : 1 ≤ 10 < int64_bound) by (unfold int64_bound; lia).
  split; [exact tape_multinomial_contract|].
  split; [exact Hwin|]. split; [exact Hlen|]. split; [exact Hcount|].
  exact (sample_idxs_with_replacement tape_multinomial
           tape_multinomial_contract demo (Some "04379243") 5 3 10 demo_world
           Hwin Hlen Hcount).
Defined.

(** ** Selection by model id *)

Section ByModelId.

Context {G : Type}.
Variable multinomial : sampler G.
Implicit Types w : world G.

Lemma idxs_of_model_ids_found (self : ShapeNetBase) (ids : list string)
    (acc : list Z) w :
  Forall (λ id, id ∈ model_ids self) ids →
  ∃ found,
    idxs_of_model_ids self ids acc w = (inr (acc ++ found), w)
    ∧ Forall2 (names_model self) ids found.
Proof.
  revert acc. induction ids as [|id ids IH]; intros acc Hall.
  - exists []. cbn. rewrite app_nil_r. by split.
  - apply Forall_cons in Hall as [Hid Hall].
    destruct (list_index_elem id (model_ids self) Hid)
      as (i & Hi & Hrange & Hlook & _).
    destruct (IH (acc ++ [i]) Hall) as (found & Hrun & Hnames).
    exists (i :: found). cbn [idxs_of_model_ids].
    rewrite bool_decide_eq_true_2 by done.
    rewrite bind_lift, Hi, Hrun, <- app_assoc. split; [done|].
    by constructor.
Qed.

Lemma idxs_of_model_ids_absent (self : ShapeNetBase) (ids : list string)
    (acc : list Z) w :
  Exists (λ id, id ∉ model_ids self) ids →
  ∃ id, id ∈ ids ∧ (id ∉ model_ids self)
        ∧ idxs_of_model_ids (G := G) self ids acc w
          = (inl (ValueError (not_found_msg id)), w).
Proof.
  revert acc. induction ids as [|id ids IH]; intros acc Hex.
  - by apply Exists_nil in Hex.
  - cbn [idxs_of_model_ids]. case_bool_decide as Hid.
    + apply Exists_cons in Hex as [?|Hex]; [done|].
      destruct (list_index_elem id (model_ids self) Hid) as (i & Hi & _).
      destruct (IH (acc ++ [i]) Hex) as (bad & Hin & Hbad & Hrun).
      exists bad. rewrite bind_lift, Hi, Hrun.
      repeat split; try done. by right.
    + exists id. repeat split; try done. by left.
Qed.

(** C3. For a non-empty list of requested model ids, either every id is
    in the catalog, and resolution returns one index per id, in the order
    of the request (a repeated id gives a repeated index), each index
    being a position of its id in the catalog; or some requested id is
    not in the catalog, and resolution, hence the whole call, raises the
    not-found [ValueError] for such an id.  Nothing is drawn or logged
    either way. *)
Theorem model_ids_resolution (self : ShapeNetBase) (ids : list string)
    (categories : option (list string)) (sample_nums idxs : option (list Z))
    w :
  ids ≠ [] →
  (Forall (λ id, id ∈ model_ids self) ids
   ∧ ∃ found,
       selected_idxs multinomial self (Some ids) categories sample_nums
         idxs w = (inr found, w)
       ∧ Forall2 (names_model self) ids found
       ∧ length found = length ids)
  ∨ (∃ id, id ∈ ids ∧ (id ∉ model_ids self)
           ∧ selected_idxs multinomial self (Some ids) categories
               sample_nums idxs w
             = (inl (ValueError (not_found_msg id)), w)
           ∧ _handle_render_inputs multinomial self (Some ids) categories
               sample_nums idxs w
             = (inl (ValueError (not_found_msg id)), w)).
Proof.
  intros Hne.
  assert (Hsel : selected_idxs multinomial self (Some ids) categories
                   sample_nums idxs
                 = idxs_of_model_ids self ids [])
    by (by destruct ids).
  unfold _handle_render_inputs. rewrite Hsel.
  destruct (decide (Forall (λ id, id ∈ model_ids self) ids)) as [Hall|Hex].
  - left. split; [done|].
    destruct (idxs_of_model_ids_found self ids [] w Hall)
      as (found & Hrun & Hnames).
    exists found. repeat split; try done.
    symmetry. by eapply Forall2_length.
  - right. apply not_Forall_Exists in Hex; [|intros id; apply _].
    destruct (idxs_of_model_ids_absent self ids [] w Hex)
      as (id & Hin & Hbad & Hrun).
    exists id. repeat split; try done.
    by rewrite (bind_inl _ _ _ _ _ Hrun).
Qed.

End ByModelId.

(** Three model ids, one of them twice, on the small dataset. *)
Lemma model_ids_resolution_witness :
  ["t1"; "c0"; "t1"] ≠ []
  ∧ ((Forall (λ id, id ∈ model_ids demo) ["t1"; "c0"; "t1"]
      ∧ ∃ found,
          selected_idxs tape_multinomial demo (Some ["t1"; "c0"; "t1"]) None
            None None demo_world = (inr found, demo_world)
          ∧ Forall2 (names_model demo) ["t1"; "c0"; "t1"] found
          ∧ length found = length ["t1"; "c0"; "t1"])
     ∨ (∃ id, id ∈ ["t1"; "c0"; "t1"] ∧ (id ∉ model_ids demo)
              ∧ selected_idxs tape_multinomial demo
                  (Some ["t1"; "c0"; "t1"]) None None None demo_world
                = (inl (ValueError (not_found_msg id)), demo_world)
              ∧ _handle_render_inputs tape_multinomial demo
                  (Some ["t1"; "c0"; "t1"]) None None None demo_world
                = (inl (ValueError (not_found_msg id)), demo_world))).
Proof.
  assert (Hne : ["t1"; "c0"; "t1"] ≠ []) by discriminate.
  split; [exact Hne|].
  exact (model_ids_resolution tape_multinomial demo ["t1"; "c0"; "t1"] None
           None None demo_world Hne).
Defined.

(** ** Selection by explicit indices, and the paths *)

Lemma string_app_assoc (a b c : string) :
  (a +:+ b) +:+ c = a +:+ (b +:+ c).
Proof.
  induction a as [|x a IH]; [done|].
  change ((String x a +:+ b) +:+ c) with (String x ((a +:+ b) +:+ c)).
  change (String x a +:+ (b +:+ c)) with (String x (a +:+ (b +:+ c))).
  by rewrite IH.
Qed.

Lemma endswith_sep_app (a b : string) :
  b ≠ "" → endswith_sep (a +:+ b) = endswith_sep b.
Proof.
  intros Hb. induction a as [|c a IH]; [done|].
  change (String c a +:+ b) with (String c (a +:+ b)). rewrite <- IH.
  cbn [endswith_sep]. destruct (a +:+ b) eqn:Hab; [|done].
  destruct a; [done|discriminate].
Qed.

(** Away from the corner cases of [os.path.join] (an empty root, a root or
    an id ending in the separator, an empty id, a component starting with
    the separator) the path has the layout root/synset/model/file. *)
Lemma path_join_layout (root synset_id model_id file : string) :
  root ≠ "" → endswith_sep root = false →
  synset_id ≠ "" → startswith_sep synset_id = false →
  endswith_sep synset_id = false →
  model_id ≠ "" → startswith_sep model_id = false →
  endswith_sep model_id = false →
  startswith_sep file = false →
  path_join root [synset_id; model_id; file]
  = root +:+ "/" +:+ synset_id +:+ "/" +:+ model_id +:+ "/" +:+ file.
Proof.
  intros Hroot Hend Hs0 Hs Hsend Hm0 Hm Hmend Hf.
  assert (Hne : ∀ a b : string, a ≠ "" → a +:+ b ≠ "")
    by (intros [|c a] b Ha; [done|discriminate]).
  assert (Hsep : ∀ c : string, c ≠ "" → "/" +:+ c ≠ "") by done.
  unfold path_join. cbn [fold_left]. unfold path_join_step.
  rewrite Hs, Hm, Hf, Hend.
  rewrite (bool_decide_eq_false_2 (root = "")) by done. cbn [orb].
  rewrite (bool_decide_eq_false_2 (root +:+ "/" +:+ synset_id = ""))
    by (by apply Hne).
  rewrite (endswith_sep_app root) by (by apply Hsep).
  rewrite (endswith_sep_app "/" synset_id), Hsend by done. cbn [orb].
  rewrite (bool_decide_eq_false_2 (_ = "")) by (by apply Hne, Hne).
  rewrite (endswith_sep_app (root +:+ "/" +:+ synset_id))
    by (by apply Hsep).
  rewrite (endswith_sep_app "/" model_id), Hmend by done. cbn [orb].
  by rewrite !string_app_assoc.
Qed.

Section ByIdxs.

Context {G : Type}.
Variable multinomial : sampler G.
Implicit Types w : world G.

Lemma by_idxs_valid (self : ShapeNetBase) (idxs : list Z) w :
  Forall (valid_idx self) idxs → by_idxs self idxs w = (inr idxs, w).
Proof.
  intros Hall. unfold by_idxs.
  replace (existsb _ idxs) with false; [done|].
  symmetry. apply not_true_is_false. intros Hex.
  apply existsb_exists in Hex as (idx & Hin%list_elem_of_In & Hbad).
  rewrite Forall_forall in Hall. specialize (Hall idx Hin).
  unfold valid_idx in Hall. lia.
Qed.

Lemma by_idxs_invalid (self : ShapeNetBase) (idxs : list Z) w :
  Exists (λ idx, ¬ valid_idx self idx) idxs →
  by_idxs self idxs w = (inl (IndexError (out_of_bounds_msg self)), w).
Proof.
  intros Hex. unfold by_idxs.
  replace (existsb _ idxs) with true; [done|].
  symmetry. apply existsb_exists.
  apply Exists_exists in Hex as (idx & Hin & Hbad).
  exists idx. split; [by apply list_elem_of_In|].
  unfold valid_idx in Hbad. lia.
Qed.

Lemma model_path_valid (self : ShapeNetBase) (idx : Z) w :
  length (synset_ids self) = length (model_ids self) →
  valid_idx self idx →
  model_path self idx w = (inr (path_of self idx), w).
Proof.
  intros Hpar Hidx. unfold valid_idx in Hidx.
  destruct (list_getitem_in_range (model_ids self) idx Hidx)
    as (m & Hm & Hml).
  destruct (list_getitem_in_range (synset_ids self) idx) as (s & Hs & Hsl);
    [unfold len in *; lia|].
  unfold model_path, path_of.
  rewrite bind_lift, Hs, bind_lift, Hm.
  by rewrite (nth_lookup_Some _ _ "" _ Hsl), (nth_lookup_Some _ _ "" _ Hml).
Qed.

Lemma model_paths_valid (self : ShapeNetBase) (idxs : list Z) w :
  length (synset_ids self) = length (model_ids self) →
  Forall (valid_idx self) idxs →
  model_paths self idxs w = (inr (path_of self <$> idxs), w).
Proof.
  intros Hpar Hall. induction Hall as [|idx idxs Hidx _ IH]; [done|].
  cbn [model_paths].
  rewrite (bind_inr _ _ _ _ _ (model_path_valid self idx w Hpar Hidx)).
  by rewrite (bind_inr _ _ _ _ _ IH).
Qed.

(** C6. With no model ids and no categories supplied, a non-empty list of
    indices either lies within [0, N), and is the selection, unchanged;
    or has an index outside [0, N), and the call raises [IndexError]
    with a text that names the bounds 0 and N - 1.  Index -1 and index N
    raise wherever they stand in the list. *)
Theorem explicit_idxs_checked (self : ShapeNetBase)
    (ids cats : option (list string))
    (sample_nums : option (list Z)) (idxs : list Z) w :
  supplied ids = false → supplied cats = false → idxs ≠ [] →
  let run :=
    _handle_render_inputs multinomial self ids cats
      sample_nums in
  let out_of_bounds := IndexError (out_of_bounds_msg self) in
  ((Forall (valid_idx self) idxs
    ∧ selected_idxs multinomial self ids cats sample_nums
        (Some idxs) w = (inr idxs, w)
    ∧ run (Some idxs) w = model_paths self idxs w)
   ∨ (Exists (λ idx, idx < 0 ∨ len (model_ids self) ≤ idx)
        idxs
      ∧ selected_idxs multinomial self ids cats sample_nums
          (Some idxs) w = (inl out_of_bounds, w)
      ∧ run (Some idxs) w = (inl out_of_bounds, w)))
  ∧ (∀ before after,
       run (Some (before ++ -1 :: after)) w = (inl out_of_bounds, w)
       ∧ run (Some (before ++ len (model_ids self) :: after))
           w = (inl out_of_bounds, w))
  ∧ out_of_bounds_msg self
    = "One or more idx values are out of bounds. Indices need to be"
      +:+ "between 0 and "
      +:+ str_of_int (len (model_ids self) - 1) +:+ ".".
Proof.
  intros Hm Hc Hne run out_of_bounds.
  assert (Hsel : ∀ l, l ≠ [] →
            selected_idxs multinomial self ids cats sample_nums
              (Some l) = by_idxs self l).
  { intros l Hl. unfold selected_idxs. rewrite Hm, Hc. by destruct l. }
  assert (Hbad : ∀ l, l ≠ [] → Exists (λ idx, ¬ valid_idx self idx) l →
            run (Some l) w = (inl out_of_bounds, w)).
  { intros l Hl Hex. unfold run, _handle_render_inputs.
    rewrite (Hsel l Hl).
    by rewrite (bind_inl _ _ _ _ _ (by_idxs_invalid self l w Hex)). }
  split; [|split; [|done]].
  - unfold run, _handle_render_inputs. rewrite (Hsel idxs Hne).
    destruct (decide (Forall (valid_idx self) idxs)) as [Hall|Hex].
    + left. pose proof (by_idxs_valid self idxs w Hall) as Hrun.
      by rewrite (bind_inr _ _ _ _ _ Hrun).
    + right. apply not_Forall_Exists in Hex; [|intros idx; apply _].
      pose proof (by_idxs_invalid self idxs w Hex) as Hrun.
      rewrite (bind_inl _ _ _ _ _ Hrun). repeat split; try done.
      eapply Exists_impl; [exact Hex|]. unfold valid_idx. cbn. lia.
  - intros before after. split; apply Hbad;
      try (by destruct before);
      apply Exists_app; right; apply Exists_cons; left;
      unfold valid_idx; lia.
Qed.

(** C9. The paths follow the resolved indices: whatever the request, if
    it resolves to indices [found] of the catalog then the call returns
    one path per index, in the same order, the path for an index being
    the join of the root directory, the synset id and the model id at
    that index, and the file name.  For a valid explicit index list the
    result is this list of paths whatever the state of the generator and
    of the warnings, which it leaves as they were. *)
Theorem paths_follow_idxs (self : ShapeNetBase)
    (ids cats : option (list string)) (sample_nums : option (list Z))
    (idx : Z) (idxs : list Z) w1 w2 :
  length (synset_ids self) = length (model_ids self) →
  supplied ids = false → supplied cats = false →
  Forall (valid_idx self) (idx :: idxs) →
  let run :=
    _handle_render_inputs multinomial self ids cats sample_nums
      (Some (idx :: idxs)) in
  let paths := path_of self <$> idx :: idxs in
  run w1 = (inr paths, w1)
  ∧ run w2 = (inr paths, w2)
  ∧ length paths = length (idx :: idxs)
  ∧ (∀ n, paths !! n = path_of self <$> (idx :: idxs) !! n)
  ∧ (∀ i, path_of self i
          = path_join (shapenet_dir self)
              [nth (Z.to_nat i) (synset_ids self) "";
               nth (Z.to_nat i) (model_ids self) "";
               model_dir self])
  ∧ (∀ ids' cats' sample_nums' idxs' found w w',
       selected_idxs multinomial self ids' cats' sample_nums' idxs' w
         = (inr found, w') →
       Forall (valid_idx self) found →
       _handle_render_inputs multinomial self ids' cats' sample_nums'
         idxs' w = (inr (path_of self <$> found), w')).
Proof.
  intros Hpar Hm Hc Hall run paths.
  assert (Hgen : ∀ ids' cats' sample_nums' idxs' found w w',
            selected_idxs multinomial self ids' cats' sample_nums' idxs' w
              = (inr found, w') →
            Forall (valid_idx self) found →
            _handle_render_inputs multinomial self ids' cats' sample_nums'
              idxs' w = (inr (path_of self <$> found), w')).
  { intros ids' cats' sample_nums' idxs' found w w' Hsel Hvalid.
    unfold _handle_render_inputs. rewrite (bind_inr _ _ _ _ _ Hsel).
    by apply model_paths_valid. }
  assert (Hsel : ∀ w, selected_idxs multinomial self ids cats sample_nums
                        (Some (idx :: idxs)) w = (inr (idx :: idxs), w)).
  { intros w. unfold selected_idxs. rewrite Hm, Hc. cbn [supplied default].
    by apply by_idxs_valid. }
  repeat split.
  - by apply (Hgen _ _ _ _ _ _ _ (Hsel w1)).
  - by apply (Hgen _ _ _ _ _ _ _ (Hsel w2)).
  - unfold paths. by rewrite length_fmap.
  - intros n. unfold paths. by rewrite list_lookup_fmap.
  - exact Hgen.
Qed.

End ByIdxs.

(** The explicit indices 7, 0, 7 on the small dataset. *)
Lemma explicit_idxs_checked_witness :
  supplied (A := string) None = false ∧ [7; 0; 7] ≠ []
  ∧ ((Forall (valid_idx demo) [7; 0; 7]
      ∧ selected_idxs tape_multinomial demo None None None (Some [7; 0; 7])
          demo_world = (inr [7; 0; 7], demo_world)
      ∧ _handle_render_inputs tape_multinomial demo None None None
          (Some [7; 0; 7]) demo_world
        = model_paths demo [7; 0; 7] demo_world)
     ∨ (Exists (λ idx, idx < 0 ∨ len (model_ids demo) ≤ idx) [7; 0; 7]
        ∧ selected_idxs tape_multinomial demo None None None
            (Some [7; 0; 7]) demo_world
          = (inl (IndexError (out_of_bounds_msg demo)), demo_world)
        ∧ _handle_render_inputs tape_multinomial demo None None None
            (Some [7; 0; 7]) demo_world
          = (inl (IndexError (out_of_bounds_msg demo)), demo_world)))
  ∧ (∀ before after,
       _handle_render_inputs tape_multinomial demo None None None
         (Some (before ++ -1 :: after)) demo_world
       = (inl (IndexError (out_of_bounds_msg demo)), demo_world)
       ∧ _handle_render_inputs tape_multinomial demo None None None
           (Some (before ++ len (model_ids demo) :: after)) demo_world
         = (inl (IndexError (out_of_bounds_msg demo)), demo_world))
  ∧ out_of_bounds_msg demo
    = "One or more idx values are out of bounds. Indices need to be"
      +:+ "between 0 and " +:+ str_of_int (len (model_ids demo) - 1) +:+ ".".
Proof.
  assert (Hne : [7; 0; 7] ≠ []) by discriminate.
  split; [reflexivity|]. split; [exact Hne|].
  exact (explicit_idxs_checked tape_multinomial demo None None None [7; 0; 7]
           demo_world eq_refl eq_refl Hne).
Defined.

(** The paths of the models at 7, 0, 7, from two different worlds. *)
Lemma paths_follow_idxs_witness :
  length (synset_ids demo) = length (model_ids demo)
  ∧ Forall (valid_idx demo) [7; 0; 7]
  ∧ _handle_render_inputs tape_multinomial demo None None None
      (Some [7; 0; 7]) demo_world
    = (inr ["/data/ShapeNetCore/04379243/t2/model.obj";
            "/data/ShapeNetCore/03001627/c0/model.obj";
            "/data/ShapeNetCore/04379243/t2/model.obj"], demo_world)
  ∧ _handle_render_inputs tape_multinomial demo None None None
      (Some [7; 0; 7]) {| rng := []; warned := ["earlier"] |}
    = (inr ["/data/ShapeNetCore/04379243/t2/model.obj";
            "/data/ShapeNetCore/03001627/c0/model.obj";
            "/data/ShapeNetCore/04379243/t2/model.obj"],
       {| rng := []; warned := ["earlier"] |}).
Proof.
  assert (Hpar : length (synset_ids demo) = length (model_ids demo))
    by reflexivity.
  assert (Hall : Forall (valid_idx demo) [7; 0; 7])
    by (repeat constructor; unfold valid_idx, len; cbn; lia).
  split; [exact Hpar|]. split; [exact Hall|].
  destruct (paths_follow_idxs tape_multinomial demo None None None 7 [0; 7]
              demo_world {| rng := []; warned := ["earlier"] |}
              Hpar eq_refl eq_refl Hall) as (Hrun1 & Hrun2 & _).
  split; [exact Hrun1|exact Hrun2].
Defined.

(** ** Selection by category *)

Lemma unknown_category_msg_not_length_mismatch (category : string) :
  unknown_category_msg category ≠ length_mismatch_msg.
Proof. discriminate. Qed.

Lemma count_lookup_broadcast (n i : nat) (k : Z) :
  (i < n)%nat →
  (if len (replicate n k) >? 1
   then list_getitem (replicate n k) (Z.of_nat i)
   else list_getitem (replicate n k) 0) = inr k.
Proof.
  intros Hi. destruct (len (replicate n k) >? 1).
  - apply list_getitem_lookup. by apply lookup_replicate_2.
  - apply (list_getitem_lookup _ 0%nat). apply lookup_replicate_2. lia.
Qed.

Section ByCategory.

Context {G : Type}.
Variable multinomial : sampler G.
Implicit Types w : world G.

Lemma sample_idxs_not_ValueError (self : ShapeNetBase) (sample_num : Z)
    (category : option string) w e w' :
  _sample_idxs_from_category multinomial self sample_num category w
    = (inl e, w') →
  ∀ msg, e ≠ ValueError msg.
Proof.
  unfold _sample_idxs_from_category, bind, lift, torch_multinomial,
    dict_getitem, torch_ones, warn, ret.
  intros Hrun msg ->.
  repeat (case_match; simplify_eq).
Qed.

Lemma model_paths_not_ValueError (self : ShapeNetBase) (idxs : list Z)
    w e w' :
  model_paths (G := G) self idxs w = (inl e, w') → ∀ msg, e ≠ ValueError msg.
Proof.
  revert w. induction idxs as [|idx idxs IH]; intros w Hrun msg ->; [done|].
  cbn [model_paths] in Hrun. unfold bind at 1 in Hrun.
  destruct (model_path self idx w) as [[e|p] w1] eqn:Hp.
  - simplify_eq. unfold model_path in Hp.
    rewrite !bind_lift in Hp.
    destruct (list_getitem (synset_ids self) idx) eqn:Hs.
    + simplify_eq. by eapply list_getitem_not_ValueError.
    + rewrite bind_lift in Hp.
      destruct (list_getitem (model_ids self) idx) eqn:Hm; [|done].
      simplify_eq. by eapply list_getitem_not_ValueError.
  - unfold bind in Hrun.
    destruct (model_paths self idxs w1) as [[e|ps] w2] eqn:Hps; [|done].
    simplify_eq. by eapply IH.
Qed.

(** The loop over a range run in two parts. *)
Lemma idxs_of_categories_app (self : ShapeNetBase) (categories : list string)
    (sample_nums : list Z) (range1 range2 : list nat) (acc : tensor) w :
  idxs_of_categories multinomial self categories sample_nums
    (range1 ++ range2) acc w
  = bind (idxs_of_categories multinomial self categories sample_nums range1
            acc)
      (λ acc', idxs_of_categories multinomial self categories sample_nums
                 range2 acc') w.
Proof.
  revert acc w. induction range1 as [|i range1 IH]; intros acc w; [done|].
  cbn [app idxs_of_categories].
  rewrite bind_assoc, !bind_lift.
  destruct (list_getitem categories _) as [e|token]; [done|].
  destruct (known_synset self _); [|done].
  rewrite bind_assoc, !bind_lift.
  destruct (if len sample_nums >? 1 then _ else _) as [e|k]; [done|].
  rewrite bind_assoc.
  destruct (_sample_idxs_from_category multinomial self k
              (Some (resolve_category self token)) w)
    as [[e|sampled] w1] eqn:Hs.
  - by run_bind Hs.
  - run_bind Hs. apply IH.
Qed.

Lemma idxs_of_categories_ValueError (self : ShapeNetBase)
    (categories : list string) (sample_nums : list Z) (range_i : list nat)
    (acc : tensor) w msg w' :
  idxs_of_categories multinomial self categories sample_nums range_i acc w
    = (inl (ValueError msg), w') →
  ∃ category, msg = unknown_category_msg category.
Proof.
  revert acc w. induction range_i as [|i range_i IH]; intros acc w; [done|].
  cbn [idxs_of_categories]. rewrite bind_lift.
  destruct (list_getitem categories _) as [e|token] eqn:Htok.
  { intros ?; simplify_eq. by apply list_getitem_not_ValueError in Htok. }
  destruct (known_synset self _);
    [|unfold raise; intros ?; simplify_eq; by eexists].
  rewrite bind_lift.
  destruct (if len sample_nums >? 1 then _ else _) as [e|k] eqn:Hk.
  { intros ?; simplify_eq.
    destruct (len sample_nums >? 1);
      by apply list_getitem_not_ValueError in Hk. }
  destruct (_sample_idxs_from_category multinomial self k
              (Some (resolve_category self token)) w)
    as [[e|sampled] w1] eqn:Hs.
  - rewrite (bind_inl _ _ _ _ _ Hs). intros ?; simplify_eq.
    by eapply sample_idxs_not_ValueError in Hs.
  - rewrite (bind_inr _ _ _ _ _ Hs). apply IH.
Qed.

Lemma idxs_of_categories_broadcast (self : ShapeNetBase)
    (categories : list string) (k : Z) (range_i : list nat) (acc : tensor) w :
  Forall (λ i, i < length categories)%nat range_i →
  idxs_of_categories multinomial self categories [k] range_i acc w
  = idxs_of_categories multinomial self categories
      (replicate (length categories) k) range_i acc w.
Proof.
  intros Hall. revert acc w.
  induction Hall as [|i range_i Hi _ IH]; intros acc w; [done|].
  cbn [idxs_of_categories]. rewrite !bind_lift.
  destruct (list_getitem categories _) as [e|token]; [done|].
  destruct (known_synset self _); [|done].
  rewrite (count_lookup_broadcast _ _ _ Hi), !bind_lift.
  change (if len [k] >? 1 then _ else list_getitem [k] 0) with (@inr exn Z k).
  cbn beta iota.
  destruct (_sample_idxs_from_category multinomial self k
              (Some (resolve_category self token)) w)
    as [[e|sampled] w1] eqn:Hs.
  - by run_bind Hs.
  - run_bind Hs. apply IH.
Qed.

Lemma selected_by_categories (self : ShapeNetBase)
    (ids : option (list string)) (cats : list string)
    (sample_nums idxs : option (list Z)) :
  supplied ids = false → cats ≠ [] →
  selected_idxs multinomial self ids (Some cats) sample_nums idxs
  = by_categories multinomial self cats sample_nums.
Proof.
  intros Hm Hne. unfold selected_idxs. rewrite Hm. by destruct cats.
Qed.

Lemma by_categories_mismatch (self : ShapeNetBase) (cats : list string)
    (sample_nums : option (list Z)) w :
  len (default [1] sample_nums) ≠ len cats →
  len (default [1] sample_nums) ≠ 1 →
  by_categories multinomial self cats sample_nums w
  = (inl (ValueError length_mismatch_msg), w).
Proof.
  intros Hlen Hone. unfold by_categories.
  change (match sample_nums with
          | Some s => s
          | None => [1]
          end) with (default [1] sample_nums).
  rewrite (bool_decide_eq_false_2 (len cats = _)) by done.
  by rewrite (bool_decide_eq_false_2 (_ = 1)) by done.
Qed.

Lemma by_categories_compatible (self : ShapeNetBase) (cats : list string)
    (sample_nums : option (list Z)) :
  len (default [1] sample_nums) = len cats
  ∨ len (default [1] sample_nums) = 1 →
  by_categories multinomial self cats sample_nums
  = idxs_of_categories multinomial self cats (default [1] sample_nums)
      (seq 0 (length cats)) [].
Proof.
  intros Hlen. unfold by_categories.
  change (match sample_nums with
          | Some s => s
          | None => [1]
          end) with (default [1] sample_nums).
  destruct Hlen as [Hlen|Hlen].
  - by rewrite (bool_decide_eq_true_2 (len cats = _)) by done.
  - rewrite (bool_decide_eq_true_2 (_ = 1)) by done.
    by rewrite andb_false_r.
Qed.

(** C5. In a request by category whose counts have a compatible length,
    take any token and let the loop have handled the tokens before it.  The
    token stands for the synset the alias map gives it, or for itself when
    it is not a key of that map; if no label of the catalog maps to that
    synset, the call raises the unknown-category [ValueError], and the
    generator and the warnings are as the earlier tokens left them: nothing
    is drawn or logged for the token. *)
Theorem unknown_category_rejected (self : ShapeNetBase)
    (ids : option (list string)) (before after : list string)
    (token : string) (sample_nums idxs : option (list Z)) (acc : tensor)
    w w1 :
  supplied ids = false →
  len (default [1] sample_nums) = len (before ++ token :: after)
  ∨ len (default [1] sample_nums) = 1 →
  (∀ label, synset_inv self !! label ≠ Some (resolve_category self token)) →
  idxs_of_categories multinomial self (before ++ token :: after)
    (default [1] sample_nums) (seq 0 (length before)) [] w = (inr acc, w1) →
  resolve_category self token
  = match synset_inv self !! token with
    | Some synset => synset
    | None => token
    end
  ∧ selected_idxs multinomial self ids (Some (before ++ token :: after))
      sample_nums idxs w
    = (inl (ValueError (unknown_category_msg (resolve_category self token))),
       w1)
  ∧ _handle_render_inputs multinomial self ids
      (Some (before ++ token :: after)) sample_nums idxs w
    = (inl (ValueError (unknown_category_msg (resolve_category self token))),
       w1)
  ∧ unknown_category_msg (resolve_category self token)
    = "Category " +:+ resolve_category self token
      +:+ " is not in the loaded dataset.".
Proof.
  intros Hm Hlen Hunknown Hbefore.
  assert (Hknown : known_synset self (resolve_category self token) = false).
  { apply not_true_is_false. intros [label Hl]%known_synset_spec.
    by apply (Hunknown label). }
  assert (Hsel : selected_idxs multinomial self ids
                   (Some (before ++ token :: after)) sample_nums idxs w
                 = (inl (ValueError (unknown_category_msg
                                       (resolve_category self token))), w1)).
  { rewrite selected_by_categories by (done || by destruct before).
    rewrite by_categories_compatible by done.
    rewrite length_app. cbn [length].
    rewrite seq_app. cbn [seq Nat.add].
    rewrite idxs_of_categories_app, (bind_inr _ _ _ _ _ Hbefore).
    cbn [idxs_of_categories].
    rewrite bind_lift.
    rewrite (list_getitem_lookup _ _ token) by (by apply list_lookup_middle).
    by rewrite Hknown. }
  split; [by unfold resolve_category, dict_get; destruct (_ !! _)|].
  split; [done|]. split; [|done].
  unfold _handle_render_inputs. by rewrite (bind_inl _ _ _ _ _ Hsel).
Qed.

(** C4 (amended). In a request by category with counts given, the call
    raises the length-mismatch [ValueError] exactly when the number of
    counts differs from the number of categories and is not 1, and it does
    so before anything is drawn or logged.  (With compatible lengths the
    call can still raise a [ValueError], the one for an unknown category.)
    A single count is broadcast: the call behaves as if the count had been
    given once per category, and two categories with one count are two
    sampling calls with that count. *)
Theorem sample_nums_length_checked (self : ShapeNetBase)
    (ids : option (list string)) (cats : list string)
    (sample_nums : list Z) (idxs : option (list Z)) w :
  supplied ids = false → cats ≠ [] →
  ((∃ w', _handle_render_inputs multinomial self ids (Some cats)
            (Some sample_nums) idxs w
          = (inl (ValueError length_mismatch_msg), w'))
   ↔ len sample_nums ≠ len cats ∧ len sample_nums ≠ 1)
  ∧ (len sample_nums = len cats ∨ len sample_nums = 1
     ∨ _handle_render_inputs multinomial self ids (Some cats)
         (Some sample_nums) idxs w
       = (inl (ValueError length_mismatch_msg), w))
  ∧ (∀ k,
       _handle_render_inputs multinomial self ids (Some cats) (Some [k])
         idxs w
       = _handle_render_inputs multinomial self ids (Some cats)
           (Some (replicate (length cats) k)) idxs w)
  ∧ (∀ c1 c2 k,
       selected_idxs multinomial self ids (Some [c1; c2]) (Some [k]) idxs w
       = (if known_synset self (resolve_category self c1) then
            s1 <~ _sample_idxs_from_category multinomial self k
                    (Some (resolve_category self c1)) ;;
            if known_synset self (resolve_category self c2) then
              s2 <~ _sample_idxs_from_category multinomial self k
                      (Some (resolve_category self c2)) ;;
              ret (s1 ++ s2)
            else raise (ValueError
                          (unknown_category_msg (resolve_category self c2)))
          else raise (ValueError
                        (unknown_category_msg (resolve_category self c1))))
           w).
Proof.
  intros Hm Hne.
  assert (Hbad : len sample_nums ≠ len cats → len sample_nums ≠ 1 →
            _handle_render_inputs multinomial self ids (Some cats)
              (Some sample_nums) idxs w
            = (inl (ValueError length_mismatch_msg), w)).
  { intros Hlen Hone. unfold _handle_render_inputs.
    rewrite selected_by_categories by done.
    by rewrite (bind_inl _ _ _ _ _
                  (by_categories_mismatch self cats (Some sample_nums) w
                     Hlen Hone)). }
  split; [split|split; [|split]].
  - intros [w' Hrun].
    destruct (decide (len sample_nums = len cats ∨ len sample_nums = 1))
      as [Hok|Hbadlen]; [|lia].
    exfalso. unfold _handle_render_inputs in Hrun.
    rewrite selected_by_categories in Hrun by done.
    rewrite (by_categories_compatible self cats (Some sample_nums)) in Hrun
      by done.
    unfold bind in Hrun.
    destruct (idxs_of_categories _ _ _ _ _ _ w) as [[e|found] w1] eqn:Hloop.
    + simplify_eq.
      apply idxs_of_categories_ValueError in Hloop as [category Hmsg].
      by eapply unknown_category_msg_not_length_mismatch.
    + by eapply model_paths_not_ValueError in Hrun.
  - intros [Hlen Hone]. exists w. by apply Hbad.
  - destruct (decide (len sample_nums = len cats)) as [?|Hlen]; [by left|].
    destruct (decide (len sample_nums = 1)) as [?|Hone]; [by right; left|].
    right; right. by apply Hbad.
  - intros k. unfold _handle_render_inputs.
    rewrite !selected_by_categories by done.
    rewrite (by_categories_compatible self cats (Some [k])) by (by right).
    rewrite (by_categories_compatible self cats (Some (replicate _ k)))
      by (left; cbn; unfold len; by rewrite length_replicate).
    change (default [1] (Some [k])) with [k].
    change (default [1] (Some (replicate (length cats) k)))
      with (replicate (length cats) k).
    assert (Hloop : ∀ w0,
              idxs_of_categories multinomial self cats [k]
                (seq 0 (length cats)) [] w0
              = idxs_of_categories multinomial self cats
                  (replicate (length cats) k) (seq 0 (length cats)) [] w0).
    { intros w0. apply idxs_of_categories_broadcast.
      apply Forall_forall. intros i Hi%elem_of_seq. lia. }
    unfold bind. by rewrite Hloop.
  - intros c1 c2 k.
    rewrite selected_by_categories by done.
    rewrite (by_categories_compatible self [c1; c2] (Some [k])) by (by right).
    change (default [1] (Some [k])) with [k].
    cbn [length seq idxs_of_categories].
    rewrite bind_lift.
    change (list_getitem [c1; c2] (Z.of_nat 0)) with (@inr exn string c1).
    cbn beta iota.
    destruct (known_synset self (resolve_category self c1)); [|done].
    rewrite bind_lift.
    change (if len [k] >? 1 then _ else list_getitem [k] 0)
      with (@inr exn Z k).
    cbn beta iota.
    destruct (_sample_idxs_from_category multinomial self k
                (Some (resolve_category self c1)) w)
      as [[e|s1] w1] eqn:Hs1.
    + by run_bind Hs1.
    + run_bind Hs1. rewrite bind_lift.
      change (list_getitem [c1; c2] (Z.of_nat 1)) with (@inr exn string c2).
      cbn beta iota.
      destruct (known_synset self (resolve_category self c2)); [|done].
      rewrite bind_lift.
      change (if len [k] >? 1 then _ else list_getitem [k] 0)
        with (@inr exn Z k).
      cbn beta iota.
      destruct (_sample_idxs_from_category multinomial self k
                  (Some (resolve_category self c2)) w1)
        as [[e|s2] w2] eqn:Hs2.
      * by run_bind Hs2.
      * by run_bind Hs2.
Qed.

End ByCategory.

(** A request for chairs, sofas and tables, two of each: the chairs are
    drawn, then the call stops at the sofas, which the dataset lacks. *)
Lemma unknown_category_rejected_witness :
  supplied (A := string) None = false
  ∧ (len (default [1] (Some [2])) = len (["chair"] ++ "sofa" :: ["table"])
     ∨ len (default [1] (Some [2])) = 1)
  ∧ (∀ label, synset_inv demo !! label ≠ Some (resolve_category demo "sofa"))
  ∧ idxs_of_categories tape_multinomial demo (["chair"] ++ "sofa" :: ["table"])
      (default [1] (Some [2])) (seq 0 (length ["chair"])) [] demo_world
    = (inr [2; 1],
       {| rng := [4; 12; 3; 9; 2; 5; 8; 6; 11; 10]%nat; warned := [] |})
  ∧ resolve_category demo "sofa" = "sofa"
  ∧ _handle_render_inputs tape_multinomial demo None
      (Some ["chair"; "sofa"; "table"]) (Some [2]) None demo_world
    = (inl (ValueError "Category sofa is not in the loaded dataset."),
       {| rng := [4; 12; 3; 9; 2; 5; 8; 6; 11; 10]%nat; warned := [] |}).
Proof.
  assert (Hlen : len (default [1] (Some [2]))
                 = len (["chair"] ++ "sofa" :: ["table"])
                 ∨ len (default [1] (Some [2])) = 1) by (by right).
  assert (Hunknown : ∀ label,
            synset_inv demo !! label ≠ Some (resolve_category demo "sofa")).
  { intros label Hl.
    assert (Hk : known_synset demo (resolve_category demo "sofa") = true)
      by (apply known_synset_spec; by exists label).
    vm_compute in Hk. discriminate. }
  assert (Hbefore :
    idxs_of_categories tape_multinomial demo (["chair"] ++ "sofa" :: ["table"])
      (default [1] (Some [2])) (seq 0 (length ["chair"])) [] demo_world
    = (inr [2; 1],
       {| rng := [4; 12; 3; 9; 2; 5; 8; 6; 11; 10]%nat; warned := [] |}))
    by (vm_compute; reflexivity).
  split; [reflexivity|]. split; [exact Hlen|]. split; [exact Hunknown|].
  split; [exact Hbefore|].
  destruct (unknown_category_rejected tape_multinomial demo None ["chair"]
              ["table"] "sofa" (Some [2]) None [2; 1] demo_world _
              eq_refl Hlen Hunknown Hbefore) as (Hres & _ & Hrun & _).
  split; [exact Hres|exact Hrun].
Defined.

(** Two categories with three counts. *)
Lemma sample_nums_length_checked_witness :
  supplied (A := string) None = false ∧ ["chair"; "04379243"] ≠ []
  ∧ _handle_render_inputs tape_multinomial demo None
      (Some ["chair"; "04379243"]) (Some [2; 3; 4]) None demo_world
    = (inl (ValueError length_mismatch_msg), demo_world)
  ∧ _handle_render_inputs tape_multinomial demo None
      (Some ["chair"; "04379243"]) (Some [2]) None demo_world
    = _handle_render_inputs tape_multinomial demo None
        (Some ["chair"; "04379243"]) (Some [2; 2]) None demo_world.
Proof.
  assert (Hne : ["chair"; "04379243"] ≠ []) by discriminate.
  split; [reflexivity|]. split; [exact Hne|].
  destruct (sample_nums_length_checked tape_multinomial demo None
              ["chair"; "04379243"] [2; 3; 4] None demo_world eq_refl Hne)
    as (_ & [Hlen|[Hone|Hrun]] & Hbroadcast & _).
  - exfalso. vm_compute in Hlen. discriminate.
  - exfalso. vm_compute in Hone. discriminate.
  - split; [exact Hrun|]. exact (Hbroadcast 2).
Defined.

(** C4, as stated, fails: the counts of this request have the length of its
    categories, and the call still raises a [ValueError] (the
    InvalidArgumentError of the specification), because the dataset has no
    sofas. *)
Lemma sample_nums_length_not_the_only_ValueError :
  ¬ ((∃ msg w',
        _handle_render_inputs tape_multinomial demo None (Some ["sofa"])
          (Some [1]) None demo_world = (inl (ValueError msg), w'))
     ↔ len [1] ≠ len ["sofa"] ∧ len [1] ≠ 1).
Proof.
  intros [Hraises _].
  destruct Hraises as [Hlen _]; [|by apply Hlen].
  by exists "Category sofa is not in the loaded dataset.", demo_world.
Qed.

(** ** Precedence of the selectors, and the default *)

Section Precedence.

Context {G : Type}.
Variable multinomial : sampler G.
Implicit Types w : world G.

(** C7. Exactly one branch answers a request, chosen in the order model
    ids, categories, indices, default.  With model ids supplied the call
    is the one with the model ids alone: categories, counts and indices
    given with them change nothing.  Otherwise, with categories supplied,
    the indices change nothing.  Otherwise, with indices supplied, the
    indices alone decide.  The default, which samples from the whole
    dataset, answers only when none of the three is supplied. *)
Theorem selection_precedence (self : ShapeNetBase)
    (ids cats : option (list string)) (sample_nums idxs : option (list Z)) w :
  match supplied ids, supplied cats, supplied idxs with
  | true, _, _ =>
      selected_idxs multinomial self ids cats sample_nums idxs w
      = idxs_of_model_ids self (default [] ids) [] w
      ∧ _handle_render_inputs multinomial self ids cats sample_nums idxs w
        = _handle_render_inputs multinomial self ids None None None w
  | false, true, _ =>
      selected_idxs multinomial self ids cats sample_nums idxs w
      = by_categories multinomial self (default [] cats) sample_nums w
      ∧ _handle_render_inputs multinomial self ids cats sample_nums idxs w
        = _handle_render_inputs multinomial self None cats sample_nums None w
  | false, false, true =>
      selected_idxs multinomial self ids cats sample_nums idxs w
      = by_idxs self (default [] idxs) w
      ∧ _handle_render_inputs multinomial self ids cats sample_nums idxs w
        = _handle_render_inputs multinomial self None None None idxs w
  | false, false, false =>
      selected_idxs multinomial self ids cats sample_nums idxs w
      = by_default multinomial self sample_nums w
      ∧ _handle_render_inputs multinomial self ids cats sample_nums idxs w
        = _handle_render_inputs multinomial self None None sample_nums None w
  end.
Proof.
  unfold _handle_render_inputs, selected_idxs.
  destruct (supplied ids) eqn:Hm.
  - destruct ids as [[|id ids]|]; try discriminate. by split.
  - destruct (supplied cats) eqn:Hc.
    + destruct cats as [[|c cats]|]; try discriminate. by split.
    + destruct (supplied idxs) eqn:Hi.
      * destruct idxs as [[|i idxs]|]; try discriminate. by split.
      * by split.
Qed.

Hypothesis contract : multinomial_contract multinomial.

(** The default branch on a non-empty dataset: the first count, or 1 when
    no counts are given, decides how many indices are drawn from the whole
    range. *)
Lemma by_default_run (self : ShapeNetBase) (sample_nums : option (list Z))
    (first : Z) w :
  head (default [1] sample_nums) = Some first →
  1 ≤ first < int64_bound → 1 ≤ __len__ self ≤ max_categories →
  ∃ positions g',
    multinomial (repeat 1 (Z.to_nat (__len__ self))) first
      (bool_decide (__len__ self < first)) (rng w) = (inr positions, g')
    ∧ len positions = first
    ∧ positions_in (__len__ self) positions
    ∧ by_default multinomial self sample_nums w
      = (inr ((λ p, p + 0) <$> positions),
         {| rng := g';
            warned :=
              warned w
              ++ (if bool_decide (1 < len (default [1] sample_nums))
                  then [several_counts_msg first] else [])
              ++ (if bool_decide (__len__ self < first)
                  then [replacement_msg first None] else []) |}).
Proof.
  intros Hfirst Hcount Hlen.
  set (counts := default [1] sample_nums) in *.
  assert (Hget : list_getitem counts 0 = inr first).
  { destruct counts as [|c counts]; [done|]. cbn in Hfirst. by simplify_eq. }
  set (w0 := {| rng := rng w;
                warned := warned w
                          ++ if bool_decide (1 < len counts)
                             then [several_counts_msg first] else [] |}).
  assert (Hrun : by_default multinomial self sample_nums w
                 = _sample_idxs_from_category multinomial self first None w0).
  { unfold by_default. cbv zeta.
    change (match sample_nums with
            | Some s => s
            | None => [1]
            end) with counts.
    unfold w0. case_bool_decide as Hmany.
    - replace (len counts >? 1) with true by lia.
      rewrite bind_assoc, bind_lift, Hget.
      unfold bind at 1, warn. cbn beta iota.
      by rewrite bind_lift.
    - replace (len counts >? 1) with false by lia.
      rewrite bind_ret, bind_lift, Hget, app_nil_r. by destruct w. }
  rewrite Hrun.
  destruct (decide (__len__ self < first)) as [Hbig|Hsmall].
  - destruct (window_draw_repeated multinomial contract self None 0
                (__len__ self) first w0 (window_all self) ltac:(lia)
                ltac:(lia) ltac:(lia))
      as (positions & g' & Hdraw & Hk & Hin & ->).
    exists positions, g'. rewrite bool_decide_eq_true_2 by done.
    split; [done|]. split; [done|]. split; [done|].
    cbn. by rewrite <- app_assoc.
  - destruct (window_draw_distinct multinomial contract self None 0
                (__len__ self) first w0 (window_all self) ltac:(lia)
                ltac:(lia))
      as (positions & g' & Hdraw & Hk & _ & Hin & ->).
    exists positions, g'. rewrite bool_decide_eq_false_2 by done.
    split; [done|]. split; [done|]. split; [done|].
    cbn. by rewrite app_nil_r.
Qed.

Lemma whole_range_valid (self : ShapeNetBase) (positions : tensor) :
  positions_in (__len__ self) positions →
  Forall (valid_idx self) ((λ p, p + 0) <$> positions).
Proof.
  intros Hin. apply Forall_fmap. eapply Forall_impl; [exact Hin|].
  unfold valid_idx, __len__. cbn. intros p Hp. lia.
Qed.

(** C8 (amended). With no model ids, no categories and no indices
    supplied, on a non-empty dataset of at most [2^24] models, the request
    is a request for [first] indices, where [first] is the first count
    given, or 1 when no counts are given ([1 <= first < 2^63]).  The call draws exactly [first] indices from the whole
    range [0, N): one call of the sampler on N weights all equal to one,
    nothing added to the positions, no category looked up.  When more than
    one count is given a warning is logged first, which says how many
    models are sampled, namely [first]. *)
Theorem default_samples_whole_dataset (self : ShapeNetBase)
    (ids cats : option (list string)) (sample_nums idxs : option (list Z))
    (first : Z) w :
  supplied ids = false → supplied cats = false → supplied idxs = false →
  head (default [1] sample_nums) = Some first →
  1 ≤ first < int64_bound → 1 ≤ __len__ self ≤ max_categories →
  ∃ positions sampled w',
    selected_idxs multinomial self ids cats sample_nums idxs w
      = (inr sampled, w')
    ∧ _handle_render_inputs multinomial self ids cats sample_nums idxs w
      = model_paths self sampled w'
    ∧ len sampled = first
    ∧ Forall (valid_idx self) sampled
    ∧ multinomial (repeat 1 (Z.to_nat (__len__ self))) first
        (bool_decide (__len__ self < first)) (rng w)
      = (inr positions, rng w')
    ∧ sampled = (λ p, p + 0) <$> positions
    ∧ warned w'
      = warned w
        ++ (if bool_decide (1 < len (default [1] sample_nums))
            then [several_counts_msg first] else [])
        ++ (if bool_decide (__len__ self < first)
            then [replacement_msg first None] else [])
    ∧ several_counts_msg first
      = "More than one sample sizes specified, now sampling "
        +:+ str_of_int first +:+ " models from the dataset."
    ∧ head (default [1] (@None (list Z))) = Some 1.
Proof.
  intros Hm Hc Hi Hfirst Hcount Hlen.
  destruct (by_default_run self sample_nums first w Hfirst Hcount Hlen)
    as (positions & g' & Hdraw & Hk & Hin & Hrun).
  assert (Hsel : selected_idxs multinomial self ids cats sample_nums idxs
                 = by_default multinomial self sample_nums)
    by (unfold selected_idxs; by rewrite Hm, Hc, Hi).
  eexists positions, _, _.
  split; [by rewrite Hsel|]. cbn [rng warned].
  split; [unfold _handle_render_inputs;
          by rewrite Hsel, (bind_inr _ _ _ _ _ Hrun)|].
  split; [by rewrite len_fmap|].
  split; [by apply whole_range_valid|].
  by repeat (split; [done|]).
Qed.

End Precedence.

(** C10. An empty list given for a selector is the selector not given:
    with [model_ids = []] the call is the call with [model_ids = None], and
    so on for the categories and for the indices, so the next selector in
    the order decides; this holds whatever the sampler does.  In particular
    the empty list selects no model and raises nothing of its own: alone,
    with a sampler that keeps its contract, on a dataset of at least one
    and at most [2^24] models that has a synset id for every model id, it
    gives the default, the path of one model drawn at random. *)
Theorem empty_selector_is_absent {G : Type} (multinomial : sampler G)
    (self : ShapeNetBase) (ids cats : option (list string))
    (sample_nums idxs : option (list Z)) (w : world G) :
  _handle_render_inputs multinomial self (Some []) cats sample_nums idxs w
  = _handle_render_inputs multinomial self None cats sample_nums idxs w
  ∧ _handle_render_inputs multinomial self ids (Some []) sample_nums idxs w
    = _handle_render_inputs multinomial self ids None sample_nums idxs w
  ∧ _handle_render_inputs multinomial self ids cats sample_nums (Some []) w
    = _handle_render_inputs multinomial self ids cats sample_nums None w
  ∧ (multinomial_contract multinomial →
     length (synset_ids self) = length (model_ids self) →
     1 ≤ __len__ self ≤ max_categories →
     ∃ i w',
       valid_idx self i
       ∧ _handle_render_inputs multinomial self (Some []) None None None w
         = (inr [path_of self i], w')
       ∧ _handle_render_inputs multinomial self None (Some []) None None w
         = (inr [path_of self i], w')
       ∧ _handle_render_inputs multinomial self None None None (Some []) w
         = (inr [path_of self i], w')).
Proof.
  split; [done|]. split; [by destruct ids as [[|id ids]|]|].
  split; [by destruct ids as [[|id ids]|], cats as [[|c cats]|]|].
  intros contract Hpar Hlen.
  destruct (by_default_run multinomial contract self None 1 w eq_refl
              ltac:(unfold int64_bound; lia) Hlen)
    as (positions & g' & Hdraw & Hk & Hin & Hrun).
  apply whole_range_valid in Hin.
  destruct positions as [|p [|q positions]];
    try (unfold len in Hk; cbn in Hk; lia).
  apply Forall_inv in Hin as Hvalid.
  assert (Hnone : _handle_render_inputs multinomial self None None None None w
                  = (inr [path_of self (p + 0)],
                     {| rng := g';
                        warned := warned w
                          ++ (if bool_decide (1 < len (default [1] None))
                              then [several_counts_msg 1] else [])
                          ++ (if bool_decide (__len__ self < 1)
                              then [replacement_msg 1 None] else []) |})).
  { unfold _handle_render_inputs, selected_idxs. cbn [supplied].
    rewrite (bind_inr _ _ _ _ _ Hrun).
    by rewrite (model_paths_valid self _ _ Hpar Hin). }
  eexists (p + 0), _. split; [done|].
  split; [exact Hnone|]. split; exact Hnone.
Qed.

(** Two counts and nothing else: a warning, then two models out of eight. *)
Lemma default_samples_whole_dataset_witness :
  multinomial_contract tape_multinomial
  ∧ supplied (A := string) None = false ∧ supplied (A := Z) None = false
  ∧ head (default [1] (Some [2; 3])) = Some 2
  ∧ 1 ≤ 2 < int64_bound ∧ 1 ≤ __len__ demo ≤ max_categories
  ∧ ∃ positions sampled w',
      selected_idxs tape_multinomial demo None None (Some [2; 3]) None
        demo_world = (inr sampled, w')
      ∧ _handle_render_inputs tape_multinomial demo None None (Some [2; 3])
          None demo_world = model_paths demo sampled w'
      ∧ len sampled = 2
      ∧ Forall (valid_idx demo) sampled
      ∧ tape_multinomial (repeat 1 (Z.to_nat (__len__ demo))) 2
          (bool_decide (__len__ demo < 2)) (rng demo_world)
        = (inr positions, rng w')
      ∧ sampled = (λ p, p + 0) <$> positions
      ∧ warned w'
        = warned demo_world
          ++ (if bool_decide (1 < len (default [1] (Some [2; 3])))
              then [several_counts_msg 2] else [])
          ++ (if bool_decide (__len__ demo < 2)
              then [replacement_msg 2 None] else [])
      ∧ several_counts_msg 2
        = "More than one sample sizes specified, now sampling "
          +:+ str_of_int 2 +:+ " models from the dataset."
      ∧ head (default [1] (@None (list Z))) = Some 1.
Proof.
  assert (Hlen : 1 ≤ __len__ demo ≤ max_categories)
    by (unfold __len__, len, max_categories; cbn; lia).
  assert (Hcount : 1 ≤ 2 < int64_bound) by (unfold int64_bound; lia).
  split; [exact tape_multinomial_contract|].
  split; [reflexivity|]. split; [reflexivity|]. split; [reflexivity|].
  split; [exact Hcount|]. split; [exact Hlen|].
  exact (default_samples_whole_dataset tape_multinomial
           tape_multinomial_contract demo None None (Some [2; 3]) None 2
           demo_world eq_refl eq_refl eq_refl eq_refl Hcount Hlen).
Defined.

(** Empty selectors on the small dataset. *)
Lemma empty_selector_is_absent_witness :
  multinomial_contract tape_multinomial
  ∧ length (synset_ids demo) = length (model_ids demo)
  ∧ 1 ≤ __len__ demo ≤ max_categories
  ∧ _handle_render_inputs tape_multinomial demo (Some [])
      (Some ["chair"]) (Some [2]) None demo_world
    = _handle_render_inputs tape_multinomial demo None
        (Some ["chair"]) (Some [2]) None demo_world
  ∧ _handle_render_inputs tape_multinomial demo None (Some []) None
      (Some [3]) demo_world
    = _handle_render_inputs tape_multinomial demo None None None
        (Some [3]) demo_world
  ∧ ∃ i w',
      valid_idx demo i
      ∧ _handle_render_inputs tape_multinomial demo None None None (Some [])
          demo_world = (inr [path_of demo i], w').
Proof.
  assert (Hlen : 1 ≤ __len__ demo ≤ max_categories)
    by (unfold __len__, len, max_categories; cbn; lia).
  split; [exact tape_multinomial_contract|].
  split; [reflexivity|]. split; [exact Hlen|].
  destruct (empty_selector_is_absent tape_multinomial demo None None
              (Some [2]) None demo_world) as (_ & _ & _ & Halone).
  destruct (Halone tape_multinomial_contract eq_refl Hlen)
    as (i & w' & Hi & _ & _ & Hrun).
  split; [|split].
  - exact (proj1 (empty_selector_is_absent tape_multinomial demo None
                    (Some ["chair"]) (Some [2]) None demo_world)).
  - exact (proj1 (proj2 (empty_selector_is_absent tape_multinomial demo None
                           None None (Some [3]) demo_world))).
  - exists i, w'. split; [exact Hi|exact Hrun].
Defined.

(** An empty list of counts is not the same as no counts: with nothing
    else supplied the default branch then fails on [sample_nums[0]]. *)
Example by_default_empty_counts :
  _handle_render_inputs tape_multinomial demo None None (Some []) None
    demo_world
  = (inl (IndexError "list index out of range"), demo_world).
Proof. reflexivity. Qed.

(** With the root directory [__init__] sets, the empty string, the join
    puts no separator in front of the synset id. *)
Example path_join_empty_root :
  path_join "" ["03001627"; "c0"; "model.obj"] = "03001627/c0/model.obj".
Proof. reflexivity. Qed.

(** ** Beyond the limits of the sampler *)

Lemma capped_multinomial_contract : multinomial_contract capped_multinomial.
Proof.
  split.
  - intros ws k tape Hpos Hmax Hk. unfold capped_multinomial.
    replace (len ws >? max_categories) with false by lia.
    by apply (multinomial_without_replacement tape_multinomial_contract).
  - intros ws k tape Hpos Hws Hk. unfold capped_multinomial.
    replace (len ws >? max_categories) with false by lia.
    by apply (multinomial_with_replacement tape_multinomial_contract).
Qed.

(** On a window of more than [2^24] indices the capped sampler is refused
    its weights: the call raises, nothing is drawn or logged. *)
Lemma capped_refuses (self : ShapeNetBase) (category : option string)
    (start range_len count : Z) (w : world (list nat)) :
  has_window self category start range_len →
  max_categories < range_len →
  _sample_idxs_from_category capped_multinomial self count category w
  = (inl (RuntimeError "number of categories cannot exceed 2^24"), w).
Proof.
  intros Hwin Hbig.
  assert (Hpos : 0 ≤ range_len) by (unfold max_categories in Hbig; lia).
  destruct (torch_ones_weights range_len Hpos) as (_ & Hlen & _).
  rewrite (sample_idxs_run capped_multinomial self category start range_len)
    by done.
  unfold capped_multinomial. rewrite Hlen.
  replace (range_len >? max_categories) with true by lia.
  by destruct w.
Qed.

Lemma too_many_chairs :
  Z.of_nat too_many = max_categories + 1
  ∧ __len__ (demo_chairs too_many) = max_categories + 1
  ∧ has_window (demo_chairs too_many) (Some "03001627") 0
      (max_categories + 1)
  ∧ has_window (demo_chairs too_many) None 0 (max_categories + 1).
Proof.
  assert (Hn : Z.of_nat too_many = max_categories + 1)
    by (unfold too_many; apply Z2Nat.id; unfold max_categories; lia).
  assert (Hlen : __len__ (demo_chairs too_many) = max_categories + 1).
  { rewrite <- Hn. unfold __len__, len, demo_chairs. cbn [model_ids].
    rewrite length_replicate. reflexivity. }
  split; [exact Hn|]. split; [exact Hlen|]. split.
  - rewrite <- Hn. constructor; apply lookup_singleton_eq.
  - rewrite <- Hlen. constructor.
Qed.

(** C1, as stated, fails beyond [2^24]: one index asked of a category of
    [2^24 + 1] models, with a sampler that keeps the contract and refuses
    what [torch.multinomial] refuses.  The call raises. *)
Lemma sample_idxs_without_replacement_too_many :
  multinomial_contract capped_multinomial
  ∧ has_window (demo_chairs too_many) (Some "03001627") 0
      (max_categories + 1)
  ∧ 1 ≤ 1 ≤ max_categories + 1
  ∧ _sample_idxs_from_category capped_multinomial (demo_chairs too_many) 1
      (Some "03001627") demo_world
    = (inl (RuntimeError "number of categories cannot exceed 2^24"),
       demo_world).
Proof.
  destruct too_many_chairs as (_ & _ & Hwin & _).
  split; [exact capped_multinomial_contract|]. split; [exact Hwin|].
  split; [unfold max_categories; lia|].
  apply (capped_refuses _ _ 0 (max_categories + 1)); [exact Hwin|lia].
Qed.

(** C2, as stated, fails beyond [2^24]: [2^24 + 2] indices asked of a
    category of [2^24 + 1] models.  The call raises and logs nothing. *)
Lemma sample_idxs_with_replacement_too_many :
  multinomial_contract capped_multinomial
  ∧ has_window (demo_chairs too_many) (Some "03001627") 0
      (max_categories + 1)
  ∧ 1 ≤ max_categories + 1 < max_categories + 2
  ∧ _sample_idxs_from_category capped_multinomial (demo_chairs too_many)
      (max_categories + 2) (Some "03001627") demo_world
    = (inl (RuntimeError "number of categories cannot exceed 2^24"),
       demo_world).
Proof.
  destruct too_many_chairs as (_ & _ & Hwin & _).
  split; [exact capped_multinomial_contract|]. split; [exact Hwin|].
  split; [unfold max_categories; lia|].
  apply (capped_refuses _ _ 0 (max_categories + 1)); [exact Hwin|lia].
Qed.

Lemma nothing_supplied (self : ShapeNetBase) (w : world (list nat)) :
  selected_idxs capped_multinomial self None None None None w
  = _sample_idxs_from_category capped_multinomial self 1 None w.
Proof. reflexivity. Qed.

(** C8, as stated, fails beyond [2^24]: nothing supplied, on a dataset of
    [2^24 + 1] models.  No index is sampled: the call raises. *)
Lemma default_samples_too_many :
  multinomial_contract capped_multinomial
  ∧ 1 ≤ __len__ (demo_chairs too_many)
  ∧ head (default [1] (@None (list Z))) = Some 1
  ∧ selected_idxs capped_multinomial (demo_chairs too_many) None None None
      None demo_world
    = (inl (RuntimeError "number of categories cannot exceed 2^24"),
       demo_world)
  ∧ _handle_render_inputs capped_multinomial (demo_chairs too_many) None
      None None None demo_world
    = (inl (RuntimeError "number of categories cannot exceed 2^24"),
       demo_world).
Proof.
  destruct too_many_chairs as (_ & Hlen & _ & Hwin).
  assert (Hsel : selected_idxs capped_multinomial (demo_chairs too_many) None
                   None None None demo_world
                 = (inl (RuntimeError
                           "number of categories cannot exceed 2^24"),
                    demo_world)).
  { rewrite nothing_supplied.
    apply (capped_refuses _ _ 0 (max_categories + 1)); [exact Hwin|lia]. }
  split; [exact capped_multinomial_contract|].
  split; [rewrite Hlen; unfold max_categories; lia|].
  split; [reflexivity|]. split; [exact Hsel|].
  unfold _handle_render_inputs. by rewrite (bind_inl _ _ _ _ _ Hsel).
Qed.

(** ** Reading the ids of a model *)

Lemma list_getitem_wrapped {A : Type} (l : list A) (i : Z) :
  - len l ≤ i < len l →
  ∃ x, list_getitem l i = inr x ∧ l !! Z.to_nat (i `mod` len l) = Some x.
Proof.
  intros Hi. unfold list_getitem.
  destruct (Z.ltb_spec i 0) as [Hneg|Hpos].
  - destruct (Z.ltb_spec (len l + i) 0) as [?|_]; [lia|].
    destruct (lookup_lt_is_Some_2 l (Z.to_nat (len l + i))) as [x Hx];
      [unfold len in *; lia|].
    exists x. rewrite Hx. split; [done|].
    replace (i `mod` len l) with (len l + i); [done|].
    apply (Z.mod_unique _ _ (-1)); lia.
  - destruct (Z.ltb_spec i 0) as [?|_]; [lia|].
    destruct (lookup_lt_is_Some_2 l (Z.to_nat i)) as [x Hx];
      [unfold len in *; lia|].
    exists x. rewrite Hx. split; [done|].
    by rewrite Z.mod_small by lia.
Qed.

Lemma list_getitem_outside {A : Type} (l : list A) (i : Z) :
  i < - len l ∨ len l ≤ i →
  list_getitem l i = inl (IndexError "list index out of range").
Proof.
  intros Hi. unfold list_getitem.
  destruct (Z.ltb_spec i 0) as [Hneg|Hpos].
  - destruct (Z.ltb_spec (len l + i) 0) as [_|?]; [done|lia].
  - destruct (Z.ltb_spec i 0) as [?|_]; [lia|].
    rewrite (lookup_ge_None_2 l (Z.to_nat i)) by (unfold len in *; lia).
    done.
Qed.

(** X1. On a catalog with one synset id per model id, [_get_item_ids(idx)]
    returns for every [idx] in [-N, N): a dict with exactly the keys
    ["synset_id"] and ["model_id"], holding the two ids at position
    [idx mod N] (a negative index counts from the end). *)
Theorem get_item_ids_in_range (self : ShapeNetBase) (idx : Z) :
  length (synset_ids self) = length (model_ids self) →
  - __len__ self ≤ idx < __len__ self →
  ∃ model synset_id model_id,
    _get_item_ids self idx = inr model
    ∧ synset_ids self !! Z.to_nat (idx `mod` __len__ self) = Some synset_id
    ∧ model_ids self !! Z.to_nat (idx `mod` __len__ self) = Some model_id
    ∧ model !! "synset_id" = Some synset_id
    ∧ model !! "model_id" = Some model_id
    ∧ dom model = {[ "synset_id"; "model_id" ]}.
Proof.
  intros Hpar Hidx. unfold __len__ in *.
  assert (Hlen : len (synset_ids self) = len (model_ids self))
    by (unfold len; by rewrite Hpar).
  destruct (list_getitem_wrapped (synset_ids self) idx) as (s & Hs & Hsl);
    [by rewrite Hlen|].
  destruct (list_getitem_wrapped (model_ids self) idx Hidx) as (m & Hm & Hml).
  rewrite Hlen in Hsl.
  exists (<["model_id" := m]> (<["synset_id" := s]> ∅)), s, m.
  unfold _get_item_ids. rewrite Hs, Hm.
  split; [done|]. split; [done|]. split; [done|].
  split; [by rewrite lookup_insert_ne, lookup_insert_eq|].
  split; [by rewrite lookup_insert_eq|].
  rewrite !dom_insert_L, dom_empty_L. set_solver.
Qed.

(** X2. On such a catalog [_get_item_ids(idx)] raises exactly when [idx]
    is outside [-N, N), and what it raises is an [IndexError]; for an index
    that fits a 64-bit signed integer it is the one of a list lookup,
    "list index out of range". *)
Theorem get_item_ids_out_of_range (self : ShapeNetBase) (idx : Z) :
  length (synset_ids self) = length (model_ids self) →
  ((∃ e, _get_item_ids self idx = inl e)
   ↔ idx < - __len__ self ∨ __len__ self ≤ idx)
  ∧ (∀ e, _get_item_ids self idx = inl e → ∃ msg, e = IndexError msg)
  ∧ (- int64_bound ≤ idx < int64_bound →
     ∀ e, _get_item_ids self idx = inl e →
          e = IndexError "list index out of range").
Proof.
  intros Hpar. unfold __len__.
  assert (Hlen : len (synset_ids self) = len (model_ids self))
    by (unfold len; by rewrite Hpar).
  destruct (decide (- len (model_ids self) ≤ idx < len (model_ids self)))
    as [Hin|Hout].
  - destruct (list_getitem_wrapped (synset_ids self) idx) as (s & Hs & _);
      [by rewrite Hlen|].
    destruct (list_getitem_wrapped (model_ids self) idx Hin) as (m & Hm & _).
    unfold _get_item_ids. rewrite Hs, Hm. split; [split|split].
    + by intros [e ?].
    + lia.
    + by intros e ?.
    + by intros _ e ?.
  - assert (Hidx : idx < - len (model_ids self) ∨ len (model_ids self) ≤ idx)
      by lia.
    unfold _get_item_ids.
    rewrite (list_getitem_outside (synset_ids self) idx) by (by rewrite Hlen).
    split; [split|split].
    + done.
    + by eexists.
    + intros e ?. simplify_eq. by eexists.
    + intros _ e ?. by simplify_eq.
Qed.

Lemma model_path_from_item_ids_run {G : Type} (self : ShapeNetBase)
    (idx : Z) (k : string → M G (list string)) (w : world G) :
  bind (model_path self idx) k w
  = match _get_item_ids self idx with
    | inr model =>
        k (path_join (shapenet_dir self)
             [default "" (model !! "synset_id");
              default "" (model !! "model_id");
              model_dir self]) w
    | inl e => (inl e, w)
    end.
Proof.
  unfold model_path, _get_item_ids. rewrite bind_assoc, bind_lift.
  destruct (list_getitem (synset_ids self) idx) as [e|s]; [done|].
  rewrite bind_assoc, bind_lift.
  destruct (list_getitem (model_ids self) idx) as [e|m]; [done|].
  by rewrite lookup_insert_ne, !lookup_insert_eq.
Qed.

(** X3. The path [_handle_render_inputs] gives to an index is built from
    exactly the ids [_get_item_ids] reports for it, and fails where and as
    [_get_item_ids] fails. *)
Theorem model_path_from_item_ids {G : Type} (self : ShapeNetBase) (idx : Z)
    (w : world G) :
  model_path self idx w
  = match _get_item_ids self idx with
    | inr model =>
        (inr (path_join (shapenet_dir self)
                [default "" (model !! "synset_id");
                 default "" (model !! "model_id");
                 model_dir self]), w)
    | inl e => (inl e, w)
    end.
Proof.
  unfold model_path, _get_item_ids. rewrite bind_lift.
  destruct (list_getitem (synset_ids self) idx) as [e|s]; [done|].
  rewrite bind_lift.
  destruct (list_getitem (model_ids self) idx) as [e|m]; [done|].
  by rewrite lookup_insert_ne, !lookup_insert_eq.
Qed.

(** The ids of the last model of the small dataset, asked for as -1. *)
Lemma get_item_ids_in_range_witness :
  length (synset_ids demo) = length (model_ids demo)
  ∧ - __len__ demo ≤ -1 < __len__ demo
  ∧ ∃ model synset_id model_id,
      _get_item_ids demo (-1) = inr model
      ∧ synset_ids demo !! Z.to_nat ((-1) `mod` __len__ demo) = Some synset_id
      ∧ model_ids demo !! Z.to_nat ((-1) `mod` __len__ demo) = Some model_id
      ∧ model !! "synset_id" = Some synset_id
      ∧ model !! "model_id" = Some model_id
      ∧ dom model = {[ "synset_id"; "model_id" ]}.
Proof.
  assert (Hidx : - __len__ demo ≤ -1 < __len__ demo)
    by (unfold __len__, len; cbn; lia).
  split; [reflexivity|]. split; [exact Hidx|].
  exact (get_item_ids_in_range demo (-1) eq_refl Hidx).
Defined.

Lemma get_item_ids_out_of_range_witness :
  length (synset_ids demo) = length (model_ids demo)
  ∧ - int64_bound ≤ 8 < int64_bound
  ∧ _get_item_ids demo 8 = inl (IndexError "list index out of range")
  ∧ ((∃ e, _get_item_ids demo (-9) = inl e)
     ↔ -9 < - __len__ demo ∨ __len__ demo ≤ -9).
Proof.
  assert (Hfits : - int64_bound ≤ 8 < int64_bound)
    by (unfold int64_bound; lia).
  split; [reflexivity|]. split; [exact Hfits|]. split.
  - exact (f_equal inl
             (proj2 (proj2 (get_item_ids_out_of_range demo 8 eq_refl)) Hfits
                _ eq_refl)).
  - exact (proj1 (get_item_ids_out_of_range demo (-9) eq_refl)).
Defined.

(** ** More on selection by model id and by index *)

Section Quiet.

Context {G : Type}.
Variable multinomial : sampler G.
Implicit Types w : world G.

Lemma idxs_of_model_ids_first (self : ShapeNetBase) (ids : list string)
    (acc : list Z) w :
  Forall (λ id, id ∈ model_ids self) ids →
  ∃ found,
    idxs_of_model_ids self ids acc w = (inr (acc ++ found), w)
    ∧ Forall2 (λ id i, names_model self id i
                       ∧ ∀ j, (j < Z.to_nat i)%nat →
                              model_ids self !! j ≠ Some id) ids found.
Proof.
  revert acc. induction ids as [|id ids IH]; intros acc Hall.
  - exists []. cbn. rewrite app_nil_r. by split.
  - apply Forall_cons in Hall as [Hid Hall].
    destruct (list_index_elem id (model_ids self) Hid)
      as (i & Hi & Hrange & Hlook & Hfirst).
    destruct (IH (acc ++ [i]) Hall) as (found & Hrun & Hnames).
    exists (i :: found). cbn [idxs_of_model_ids].
    rewrite bool_decide_eq_true_2 by done.
    rewrite bind_lift, Hi, Hrun, <- app_assoc. split; [done|].
    by constructor.
Qed.

Lemma idxs_of_model_ids_quiet (self : ShapeNetBase) (ids : list string)
    (acc : list Z) w :
  (idxs_of_model_ids (G := G) self ids acc w).2 = w.
Proof.
  revert acc. induction ids as [|id ids IH]; intros acc; [done|].
  cbn [idxs_of_model_ids]. case_bool_decide; [|done].
  rewrite bind_lift. destruct (list_index id (model_ids self)); [done|].
  apply IH.
Qed.

Lemma model_paths_quiet (self : ShapeNetBase) (idxs : list Z) w :
  (model_paths (G := G) self idxs w).2 = w.
Proof.
  induction idxs as [|idx idxs IH]; [done|].
  cbn [model_paths]. rewrite model_path_from_item_ids_run.
  destruct (_get_item_ids self idx) as [e|model]; [done|].
  unfold bind. destruct (model_paths self idxs w) as [[e|ps] w'] eqn:Hps;
    cbn in *; by subst.
Qed.

(** X4. When a model id occurs more than once in the catalog, a request
    by model id resolves it to its first occurrence: no smaller index
    carries that id. *)
Theorem model_ids_first_occurrence (self : ShapeNetBase) (ids : list string)
    (cats : option (list string)) (sample_nums idxs : option (list Z)) w :
  ids ≠ [] →
  Forall (λ id, id ∈ model_ids self) ids →
  ∃ found,
    selected_idxs multinomial self (Some ids) cats sample_nums idxs w
      = (inr found, w)
    ∧ Forall2 (λ id i, names_model self id i
                       ∧ ∀ j, (j < Z.to_nat i)%nat →
                              model_ids self !! j ≠ Some id) ids found.
Proof.
  intros Hne Hall.
  destruct (idxs_of_model_ids_first self ids [] w Hall)
    as (found & Hrun & Hfirst).
  exists found. split; [|done].
  unfold selected_idxs. by destruct ids.
Qed.

(** X5. On a catalog with one synset id per model id, a request by model
    ids that are all in the catalog returns: one path per requested id, in
    the order of the request, each the path of an index carrying that
    id. *)
Theorem model_ids_paths (self : ShapeNetBase) (ids : list string)
    (cats : option (list string)) (sample_nums idxs : option (list Z)) w :
  length (synset_ids self) = length (model_ids self) →
  ids ≠ [] →
  Forall (λ id, id ∈ model_ids self) ids →
  ∃ found,
    _handle_render_inputs multinomial self (Some ids) cats sample_nums idxs w
      = (inr (path_of self <$> found), w)
    ∧ Forall2 (names_model self) ids found
    ∧ length (path_of self <$> found) = length ids.
Proof.
  intros Hpar Hne Hall.
  destruct (idxs_of_model_ids_found self ids [] w Hall)
    as (found & Hrun & Hnames).
  exists found.
  assert (Hvalid : Forall (valid_idx self) found).
  { clear Hrun Hall Hne.
    induction Hnames as [|id i ids found [Hi _] _ IH]; by constructor. }
  split; [|split; [done|]].
  - unfold _handle_render_inputs, selected_idxs.
    destruct ids as [|id ids]; [done|]. cbn [supplied default].
    rewrite (bind_inr _ _ _ _ _ Hrun). by apply model_paths_valid.
  - rewrite length_fmap. symmetry. by eapply Forall2_length.
Qed.

(** X6. A request answered by model ids or by explicit indices never
    draws and never warns: whether it returns or raises, the generator and
    the warning log are as it found them. *)
Theorem no_sampling_no_effect (self : ShapeNetBase)
    (ids cats : option (list string)) (sample_nums idxs : option (list Z)) w :
  supplied ids = true ∨ supplied cats = false ∧ supplied idxs = true →
  (_handle_render_inputs multinomial self ids cats sample_nums idxs w).2 = w.
Proof.
  intros Hmode. unfold _handle_render_inputs, bind.
  assert (Hsel : (selected_idxs multinomial self ids cats sample_nums idxs
                    w).2 = w).
  { unfold selected_idxs. destruct (supplied ids) eqn:Hm.
    - apply idxs_of_model_ids_quiet.
    - destruct Hmode as [?|[Hc Hi]]; [done|]. rewrite Hc, Hi.
      unfold by_idxs. by destruct (existsb _ _). }
  destruct (selected_idxs _ _ _ _ _ _ w) as [[e|found] w1]; cbn in Hsel;
    subst w1; [done|].
  apply model_paths_quiet.
Qed.

End Quiet.

(** The model id "m" resolved on a catalog that has it twice. *)
Lemma model_ids_first_occurrence_witness :
  ["m"; "n"] ≠ []
  ∧ Forall (λ id, id ∈ model_ids demo_twice) ["m"; "n"]
  ∧ ∃ found,
      selected_idxs tape_multinomial demo_twice (Some ["m"; "n"]) None None
        None demo_world = (inr found, demo_world)
      ∧ Forall2 (λ id i, names_model demo_twice id i
                         ∧ ∀ j, (j < Z.to_nat i)%nat →
                                model_ids demo_twice !! j ≠ Some id)
          ["m"; "n"] found.
Proof.
  assert (Hne : ["m"; "n"] ≠ []) by discriminate.
  assert (Hall : Forall (λ id, id ∈ model_ids demo_twice) ["m"; "n"]).
  { repeat constructor; apply list_elem_of_In; cbn; tauto. }
  split; [exact Hne|]. split; [exact Hall|].
  exact (model_ids_first_occurrence tape_multinomial demo_twice ["m"; "n"]
           None None None demo_world Hne Hall).
Defined.

Lemma model_ids_paths_witness :
  length (synset_ids demo) = length (model_ids demo)
  ∧ ["t1"; "c0"; "t1"] ≠ []
  ∧ Forall (λ id, id ∈ model_ids demo) ["t1"; "c0"; "t1"]
  ∧ ∃ found,
      _handle_render_inputs tape_multinomial demo (Some ["t1"; "c0"; "t1"])
        None None None demo_world
      = (inr (path_of demo <$> found), demo_world)
      ∧ Forall2 (names_model demo) ["t1"; "c0"; "t1"] found
      ∧ length (path_of demo <$> found) = length ["t1"; "c0"; "t1"].
Proof.
  assert (Hne : ["t1"; "c0"; "t1"] ≠ []) by discriminate.
  assert (Hall : Forall (λ id, id ∈ model_ids demo) ["t1"; "c0"; "t1"]).
  { repeat constructor; apply list_elem_of_In; cbn; tauto. }
  split; [reflexivity|]. split; [exact Hne|]. split; [exact Hall|].
  exact (model_ids_paths tape_multinomial demo ["t1"; "c0"; "t1"] None None
           None demo_world eq_refl Hne Hall).
Defined.

Lemma no_sampling_no_effect_witness :
  (supplied (A := string) None = true
   ∨ supplied (A := string) None = false ∧ supplied (Some [7; -1]) = true)
  ∧ (_handle_render_inputs tape_multinomial demo None None (Some [2])
       (Some [7; -1]) demo_world).2 = demo_world.
Proof.
  assert (Hmode : supplied (A := string) None = true
                  ∨ supplied (A := string) None = false
                    ∧ supplied (Some [7; -1]) = true) by (by right).
  split; [exact Hmode|].
  exact (no_sampling_no_effect tape_multinomial demo None None (Some [2])
           (Some [7; -1]) demo_world Hmode).
Defined.

(** ** How sampling fails, and what it logs *)

Section Failures.

Context {G : Type}.
Variable multinomial : sampler G.
Implicit Types w : world G.

Lemma sample_idxs_no_start (self : ShapeNetBase) (sample_num : Z)
    (c : string) w :
  synset_starts self !! c = None →
  _sample_idxs_from_category multinomial self sample_num (Some c) w
  = (inl (KeyError c), w).
Proof.
  intros Hs. unfold _sample_idxs_from_category, dict_getitem.
  by rewrite bind_lift, Hs.
Qed.

Lemma sample_idxs_no_len (self : ShapeNetBase) (sample_num : Z)
    (c : string) w :
  synset_lens self !! c = None →
  _sample_idxs_from_category multinomial self sample_num (Some c) w
  = (inl (KeyError c), w).
Proof.
  intros Hl. unfold _sample_idxs_from_category, dict_getitem.
  rewrite bind_lift. destruct (synset_starts self !! c); [|done].
  by rewrite bind_lift, Hl.
Qed.

(** X7. A synset the alias map knows but the index tables do not have
    makes sampling raise [KeyError] for that synset, before anything is
    drawn or logged; the same [KeyError] is what a request by category
    raises when its first category is such a synset. *)
Theorem sample_idxs_missing_key (self : ShapeNetBase) (sample_num : Z)
    (c token : string) (ids : option (list string)) (cats : list string)
    (sample_nums idxs : option (list Z)) w :
  synset_starts self !! c = None ∨ synset_lens self !! c = None →
  supplied ids = false →
  resolve_category self token = c → known_synset self c = true →
  len (default [1] sample_nums) = len (token :: cats)
  ∨ len (default [1] sample_nums) = 1 →
  _sample_idxs_from_category multinomial self sample_num (Some c) w
  = (inl (KeyError c), w)
  ∧ _handle_render_inputs multinomial self ids (Some (token :: cats))
      sample_nums idxs w
    = (inl (KeyError c), w).
Proof.
  intros Hmissing Hm Hres Hknown Hlen.
  assert (Hrun : ∀ k, _sample_idxs_from_category multinomial self k (Some c) w
                      = (inl (KeyError c), w)).
  { intros k. destruct Hmissing;
      [by apply sample_idxs_no_start|by apply sample_idxs_no_len]. }
  split; [apply Hrun|].
  unfold _handle_render_inputs.
  rewrite selected_by_categories by done.
  rewrite by_categories_compatible by done.
  cbn [length seq idxs_of_categories].
  rewrite bind_assoc, bind_lift.
  change (list_getitem (token :: cats) (Z.of_nat 0)) with (@inr exn _ token).
  cbn beta iota. rewrite Hres, Hknown, bind_assoc, bind_lift.
  destruct (if len (default [1] sample_nums) >? 1 then _ else _) as [e|k]
    eqn:Hk.
  { exfalso. revert Hk.
    destruct (default [1] sample_nums) as [|k0 counts].
    - unfold len in Hlen. cbn in Hlen. lia.
    - by destruct (len (k0 :: counts) >? 1). }
  rewrite bind_assoc. by rewrite (bind_inl _ _ _ _ _ (Hrun k)).
Qed.


(** The log only grows under sampling. *)
Lemma sample_idxs_log (self : ShapeNetBase) (sample_num : Z)
    (category : option string) w :
  warned w `prefix_of`
    warned (_sample_idxs_from_category multinomial self sample_num category
              w).2.
Proof.
  unfold _sample_idxs_from_category, bind, lift, torch_multinomial,
    dict_getitem, torch_ones, warn, ret.
  repeat (case_match; simplify_eq); cbn;
    first [ done | by apply prefix_app_r ].
Qed.

Lemma idxs_of_categories_log (self : ShapeNetBase) (categories : list string)
    (sample_nums : list Z) (range_i : list nat) (acc : tensor) w :
  warned w `prefix_of`
    warned (idxs_of_categories multinomial self categories sample_nums
              range_i acc w).2.
Proof.
  revert acc w. induction range_i as [|i range_i IH]; intros acc w; [done|].
  cbn [idxs_of_categories]. rewrite bind_lift.
  destruct (list_getitem categories _) as [e|token]; [done|].
  destruct (known_synset self _); [|done].
  rewrite bind_lift.
  destruct (if len sample_nums >? 1 then _ else _) as [e|k]; [done|].
  pose proof (sample_idxs_log self k (Some (resolve_category self token)) w)
    as Hlog.
  destruct (_sample_idxs_from_category multinomial self k
              (Some (resolve_category self token)) w)
    as [[e|sampled] w1] eqn:Hs; run_bind Hs; [done|].
  etrans; [exact Hlog|]. apply IH.
Qed.

(** X9. Whatever the request and whatever its outcome, the warnings logged
    before the call are still there after it, in the same order: the call
    only ever appends to the log. *)
Theorem warnings_only_grow (self : ShapeNetBase)
    (ids cats : option (list string)) (sample_nums idxs : option (list Z)) w :
  warned w `prefix_of`
    warned (_handle_render_inputs multinomial self ids cats sample_nums idxs
              w).2.
Proof.
  assert (Hsel : warned w `prefix_of`
            warned (selected_idxs multinomial self ids cats sample_nums idxs
                      w).2).
  { unfold selected_idxs. destruct (supplied ids).
    - by rewrite idxs_of_model_ids_quiet.
    - destruct (supplied cats).
      + unfold by_categories. case_match; [done|].
        apply idxs_of_categories_log.
      + destruct (supplied idxs).
        * unfold by_idxs. by destruct (existsb _ _).
        * unfold by_default. cbv zeta.
          destruct (len _ >? 1).
          -- rewrite bind_assoc, bind_lift.
             destruct (list_getitem _ 0) as [e|first]; [done|].
             unfold bind at 1, warn. cbn beta iota. rewrite bind_lift.
             etrans; [|apply sample_idxs_log]. by apply prefix_app_r.
          -- rewrite bind_ret, bind_lift.
             destruct (list_getitem _ 0) as [e|first]; [done|].
             apply sample_idxs_log. }
  unfold _handle_render_inputs, bind.
  destruct (selected_idxs _ _ _ _ _ _ w) as [[e|found] w1]; [done|].
  by rewrite model_paths_quiet.
Qed.

End Failures.

(** Tables asked for on a dataset whose index tables lack them. *)
Lemma sample_idxs_missing_key_witness :
  (synset_starts demo_no_tables !! "04379243" = None
   ∨ synset_lens demo_no_tables !! "04379243" = None)
  ∧ supplied (A := string) None = false
  ∧ resolve_category demo_no_tables "table" = "04379243"
  ∧ known_synset demo_no_tables "04379243" = true
  ∧ (len (default [1] (Some [2])) = len ("table" :: ["chair"])
     ∨ len (default [1] (Some [2])) = 1)
  ∧ _sample_idxs_from_category tape_multinomial demo_no_tables 2
      (Some "04379243") demo_world = (inl (KeyError "04379243"), demo_world)
  ∧ _handle_render_inputs tape_multinomial demo_no_tables None
      (Some ("table" :: ["chair"])) (Some [2]) None demo_world
    = (inl (KeyError "04379243"), demo_world).
Proof.
  assert (Hmissing : synset_starts demo_no_tables !! "04379243" = None
                     ∨ synset_lens demo_no_tables !! "04379243" = None)
    by (by left).
  assert (Hlen : len (default [1] (Some [2])) = len ("table" :: ["chair"])
                 ∨ len (default [1] (Some [2])) = 1) by (by right).
  assert (Hknown : known_synset demo_no_tables "04379243" = true)
    by (vm_compute; reflexivity).
  split; [exact Hmissing|]. split; [reflexivity|]. split; [reflexivity|].
  split; [exact Hknown|]. split; [exact Hlen|].
  exact (sample_idxs_missing_key tape_multinomial demo_no_tables 2
           "04379243" "table" None ["chair"] (Some [2]) None demo_world
           Hmissing eq_refl eq_refl Hknown Hlen).
Defined.


(** ** What a request by category returns *)

Lemma list_getitem_fmap {A B : Type} (f : A → B) (l : list A) (i : Z) :
  list_getitem (f <$> l) i
  = match list_getitem l i with
    | inr x => inr (f x)
    | inl e => inl e
    end.
Proof.
  unfold list_getitem. rewrite len_fmap, list_lookup_fmap.
  destruct (_ <? 0); [done|]. by destruct (l !! _).
Qed.

Section Grouping.

Context {G : Type}.
Variable multinomial : sampler G.
Implicit Types w : world G.

(** The loop looks at the tokens only through the synsets they stand
    for. *)
Lemma idxs_of_categories_resolved (self : ShapeNetBase)
    (cats1 cats2 : list string) (sample_nums : list Z) (range_i : list nat)
    (acc : tensor) w :
  resolve_category self <$> cats1 = resolve_category self <$> cats2 →
  idxs_of_categories multinomial self cats1 sample_nums range_i acc w
  = idxs_of_categories multinomial self cats2 sample_nums range_i acc w.
Proof.
  intros Hres. revert acc w.
  induction range_i as [|i range_i IH]; intros acc w; [done|].
  cbn [idxs_of_categories]. rewrite !bind_lift.
  pose proof (list_getitem_fmap (resolve_category self) cats1 (Z.of_nat i))
    as H1.
  rewrite Hres, list_getitem_fmap in H1.
  destruct (list_getitem cats1 _) as [e1|t1], (list_getitem cats2 _)
    as [e2|t2]; simplify_eq; [done|].
  rewrite <- H1.
  destruct (known_synset self _); [|done].
  rewrite !bind_lift.
  destruct (if len sample_nums >? 1 then _ else _) as [e|k]; [done|].
  destruct (_sample_idxs_from_category multinomial self k
              (Some (resolve_category self t2)) w)
    as [[e|sampled] w1] eqn:Hs; run_bind Hs; [done|].
  apply IH.
Qed.

(** X11. Categories can be named by label or by synset, in any mix: two
    requests whose categories stand for the same synsets, position by
    position, are the same request. *)
Theorem label_or_synset (self : ShapeNetBase) (ids : option (list string))
    (cats1 cats2 : list string) (sample_nums idxs : option (list Z)) w :
  resolve_category self <$> cats1 = resolve_category self <$> cats2 →
  _handle_render_inputs multinomial self ids (Some cats1) sample_nums idxs w
  = _handle_render_inputs multinomial self ids (Some cats2) sample_nums idxs
      w.
Proof.
  intros Hres.
  assert (Hlen : length cats1 = length cats2)
    by (by rewrite <- (length_fmap (resolve_category self) cats1), Hres,
          length_fmap).
  assert (Hsel : selected_idxs multinomial self ids (Some cats1) sample_nums
                   idxs w
                 = selected_idxs multinomial self ids (Some cats2)
                     sample_nums idxs w).
  { destruct (supplied ids) eqn:Hm; [unfold selected_idxs; by rewrite Hm|].
    destruct cats1 as [|c1 cats1], cats2 as [|c2 cats2]; try done.
    rewrite !selected_by_categories by done.
    unfold by_categories, len. rewrite Hlen.
    destruct (_ && _); [done|].
    by apply idxs_of_categories_resolved. }
  unfold _handle_render_inputs, bind. by rewrite Hsel.
Qed.

Hypothesis contract : multinomial_contract multinomial.

Lemma window_draw_any (self : ShapeNetBase) (category : option string)
    (start range_len count : Z) w :
  has_window self category start range_len →
  1 ≤ range_len ≤ max_categories → 1 ≤ count < int64_bound →
  ∃ sampled w',
    _sample_idxs_from_category multinomial self count category w
      = (inr sampled, w')
    ∧ len sampled = count ∧ idxs_in start range_len sampled.
Proof.
  intros Hwin Hlen Hcount.
  destruct (decide (range_len < count)) as [Hbig|Hsmall].
  - destruct (window_draw_repeated multinomial contract self category start
                range_len count w Hwin ltac:(lia) ltac:(lia) ltac:(lia))
      as (positions & g' & _ & Hk & Hin & Hrun).
    eexists _, _. split; [exact Hrun|].
    split; [by rewrite len_fmap|by apply shift_idxs_in].
  - destruct (window_draw_distinct multinomial contract self category start
                range_len count w Hwin ltac:(lia) ltac:(lia))
      as (positions & g' & _ & Hk & _ & Hin & Hrun).
    eexists _, _. split; [exact Hrun|].
    split; [by rewrite len_fmap|by apply shift_idxs_in].
Qed.

Lemma idxs_of_categories_blocks (self : ShapeNetBase) (cats : list string)
    (sample_nums : list Z) (n a : nat) (acc : tensor) w :
  (∀ i token, (a ≤ i < a + n)%nat → cats !! i = Some token →
              samplable self sample_nums i token) →
  (a + n ≤ length cats)%nat →
  ∃ blocks w',
    idxs_of_categories multinomial self cats sample_nums (seq a n) acc w
      = (inr (acc ++ concat blocks), w')
    ∧ length blocks = n
    ∧ ∀ j block, blocks !! j = Some block →
        ∃ token, cats !! (a + j)%nat = Some token
                 ∧ block_of self sample_nums (a + j) token block.
Proof.
  revert a acc w. induction n as [|n IH]; intros a acc w Hgood Hbound.
  - exists [], w. cbn. rewrite app_nil_r. by repeat split.
  - destruct (lookup_lt_is_Some_2 cats a) as [token Htok]; [lia|].
    destruct (Hgood a token ltac:(lia) Htok)
      as (k & start & range_len & Hk & Hk1 & Hknown & Hwin & Hlen).
    destruct (window_draw_any self _ start range_len k w Hwin Hlen Hk1)
      as (sampled & w1 & Hrun & Hsize & Hin).
    destruct (IH (S a) (acc ++ sampled) w1) as (blocks & w' & Hloop & Hn & Hb).
    { intros i t Hi. apply Hgood. lia. }
    { lia. }
    assert (Hblock : block_of self sample_nums a token sampled)
      by (exists start, range_len; by rewrite Hsize).
    exists (sampled :: blocks), w'. cbn [seq idxs_of_categories].
    rewrite bind_lift, (list_getitem_lookup _ _ _ Htok). cbn beta iota.
    rewrite Hknown, bind_lift.
    unfold count_for in Hk. rewrite Hk. cbn beta iota.
    rewrite (bind_inr _ _ _ _ _ Hrun), Hloop.
    split; [by rewrite <- app_assoc|]. split; [cbn; by rewrite Hn|].
    intros [|j] block Hj; cbn in Hj.
    + injection Hj as <-. exists token. by rewrite Nat.add_0_r.
    + clear Hblock. destruct (Hb j block Hj) as (t & Ht & Hblock).
      exists t. by replace (a + S j)%nat with (S a + j)%nat by lia.
Qed.

(** X10. A request by category whose categories can all be sampled (known
    synset, window of 1 to [2^24] indices, count from 1 to below [2^63])
    returns
    one block of indices per category, in the order of the request: the
    block of a category has as many indices as the count that goes with it
    (its own, or the single one given), all in the window of its synset,
    and the selection is the blocks one after the other. *)
Theorem categories_grouped (self : ShapeNetBase) (ids : option (list string))
    (cats : list string) (sample_nums idxs : option (list Z)) w :
  supplied ids = false → cats ≠ [] →
  len (default [1] sample_nums) = len cats
  ∨ len (default [1] sample_nums) = 1 →
  (∀ i token, cats !! i = Some token →
              samplable self (default [1] sample_nums) i token) →
  ∃ blocks w',
    selected_idxs multinomial self ids (Some cats) sample_nums idxs w
      = (inr (concat blocks), w')
    ∧ length blocks = length cats
    ∧ ∀ i block, blocks !! i = Some block →
        ∃ token, cats !! i = Some token
                 ∧ block_of self (default [1] sample_nums) i token block.
Proof.
  intros Hm Hne Hlen Hgood.
  rewrite selected_by_categories by done.
  rewrite by_categories_compatible by done.
  destruct (idxs_of_categories_blocks self cats (default [1] sample_nums)
              (length cats) 0 [] w) as (blocks & w' & Hrun & Hn & Hb).
  { intros i token _. apply Hgood. }
  { lia. }
  exists blocks, w'. split; [exact Hrun|]. split; [exact Hn|].
  intros i block Hi. exact (Hb i block Hi).
Qed.

(** X12. When the index tables agree with the catalog, sampling from a
    category (window of 1 to [2^24] indices, count from 1 to below [2^63])
    returns only models of that category: every index sampled
    reads, through [_get_item_ids], as a model whose synset id is the
    category. *)
Theorem sampled_from_category (self : ShapeNetBase) (c : string)
    (start range_len count : Z) w :
  window_consistent self →
  length (synset_ids self) = length (model_ids self) →
  has_window self (Some c) start range_len →
  1 ≤ range_len ≤ max_categories → 1 ≤ count < int64_bound →
  ∃ sampled w',
    _sample_idxs_from_category multinomial self count (Some c) w
      = (inr sampled, w')
    ∧ len sampled = count
    ∧ Forall (λ idx, valid_idx self idx
                     ∧ ∃ model, _get_item_ids self idx = inr model
                                ∧ model !! "synset_id" = Some c) sampled.
Proof.
  intros Hcons Hpar Hwin Hlen Hcount.
  destruct (window_draw_any self _ start range_len count w Hwin Hlen Hcount)
    as (sampled & w' & Hrun & Hsize & Hin).
  exists sampled, w'. split; [exact Hrun|]. split; [exact Hsize|].
  inversion Hwin as [|c' s' l' Hs Hl]; subst.
  eapply Forall_impl; [exact Hin|]. cbn. intros idx Hidx.
  destruct (Hcons c start range_len idx Hs Hl Hidx) as [Hpos Hsyn].
  assert (Hvalid : valid_idx self idx).
  { unfold valid_idx, len. apply lookup_lt_Some in Hsyn. lia. }
  split; [exact Hvalid|].
  destruct (list_getitem_in_range (model_ids self) idx Hvalid)
    as (m & Hm & _).
  exists (<["model_id" := m]> (<["synset_id" := c]> ∅)).
  unfold _get_item_ids.
  rewrite <- (Z2Nat.id idx) at 1 by done.
  rewrite (list_getitem_lookup _ _ _ Hsyn), Hm.
  split; [done|]. by rewrite lookup_insert_ne, lookup_insert_eq.
Qed.

End Grouping.

Lemma label_or_synset_witness :
  resolve_category demo <$> ["chair"; "04379243"]
  = resolve_category demo <$> ["03001627"; "table"]
  ∧ _handle_render_inputs tape_multinomial demo None
      (Some ["chair"; "04379243"]) (Some [2]) None demo_world
    = _handle_render_inputs tape_multinomial demo None
        (Some ["03001627"; "table"]) (Some [2]) None demo_world.
Proof.
  assert (Hres : resolve_category demo <$> ["chair"; "04379243"]
                 = resolve_category demo <$> ["03001627"; "table"])
    by reflexivity.
  split; [exact Hres|].
  exact (label_or_synset tape_multinomial demo None _ _ (Some [2]) None
           demo_world Hres).
Defined.

Lemma demo_samplable (i : nat) (token : string) :
  ["chair"; "table"] !! i = Some token →
  samplable demo (default [1] (Some [2; 10])) i token.
Proof.
  destruct i as [|[|i]]; intros Htok; cbn in Htok; simplify_eq.
  - exists 2, 0, 5. split; [reflexivity|].
    split; [unfold int64_bound; lia|].
    split; [vm_compute; reflexivity|].
    split; [by constructor|unfold max_categories; lia].
  - exists 10, 5, 3. split; [reflexivity|].
    split; [unfold int64_bound; lia|].
    split; [vm_compute; reflexivity|].
    split; [by constructor|unfold max_categories; lia].
Defined.

(** Two chairs and ten tables. *)
Lemma categories_grouped_witness :
  multinomial_contract tape_multinomial
  ∧ supplied (A := string) None = false ∧ ["chair"; "table"] ≠ []
  ∧ (len (default [1] (Some [2; 10])) = len ["chair"; "table"]
     ∨ len (default [1] (Some [2; 10])) = 1)
  ∧ (∀ i token, ["chair"; "table"] !! i = Some token →
                samplable demo (default [1] (Some [2; 10])) i token)
  ∧ ∃ blocks w',
      selected_idxs tape_multinomial demo None (Some ["chair"; "table"])
        (Some [2; 10]) None demo_world = (inr (concat blocks), w')
      ∧ length blocks = length ["chair"; "table"]
      ∧ ∀ i block, blocks !! i = Some block →
          ∃ token, ["chair"; "table"] !! i = Some token
                   ∧ block_of demo (default [1] (Some [2; 10])) i token
                       block.
Proof.
  assert (Hne : ["chair"; "table"] ≠ []) by discriminate.
  assert (Hlen : len (default [1] (Some [2; 10])) = len ["chair"; "table"]
                 ∨ len (default [1] (Some [2; 10])) = 1) by (by left).
  split; [exact tape_multinomial_contract|]. split; [reflexivity|].
  split; [exact Hne|]. split; [exact Hlen|]. split; [exact demo_samplable|].
  exact (categories_grouped tape_multinomial tape_multinomial_contract demo
           None ["chair"; "table"] (Some [2; 10]) None demo_world eq_refl
           Hne Hlen demo_samplable).
Defined.

Lemma demo_window_consistent : window_consistent demo.
Proof.
  intros c start range_len i Hs Hl [Hlo Hhi]. cbn in Hs, Hl.
  apply lookup_insert_Some in Hs as [[<- <-]|[Hne Hs]].
  - rewrite lookup_insert_eq in Hl. simplify_eq.
    split; [lia|].
    assert (Hi : i = 0 ∨ i = 1 ∨ i = 2 ∨ i = 3 ∨ i = 4) by lia.
    by destruct Hi as [->|[->|[->|[->| ->]]]].
  - apply lookup_singleton_Some in Hs as [<- <-].
    rewrite lookup_insert_ne, lookup_singleton_eq in Hl by done.
    simplify_eq. split; [lia|].
    assert (Hi : i = 5 ∨ i = 6 ∨ i = 7) by lia.
    by destruct Hi as [->|[->| ->]].
Defined.

(** Ten tables sampled: tables only. *)
Lemma sampled_from_category_witness :
  multinomial_contract tape_multinomial
  ∧ window_consistent demo
  ∧ length (synset_ids demo) = length (model_ids demo)
  ∧ has_window demo (Some "04379243") 5 3
  ∧ 1 ≤ 3 ≤ max_categories ∧ 1 ≤ 10 < int64_bound
  ∧ ∃ sampled w',
      _sample_idxs_from_category tape_multinomial demo 10 (Some "04379243")
        demo_world = (inr sampled, w')
      ∧ len sampled = 10
      ∧ Forall (λ idx, valid_idx demo idx
                       ∧ ∃ model, _get_item_ids demo idx = inr model
                                  ∧ model !! "synset_id" = Some "04379243")
          sampled.
Proof.
  assert (Hwin : has_window demo (Some "04379243") 5 3) by (by constructor).
  assert (Hlen : 1 ≤ 3 ≤ max_categories) by (unfold max_categories; lia).
  assert (Hcount : 1 ≤ 10 < int64_bound) by (unfold int64_bound; lia).
  split; [exact tape_multinomial_contract|].
  split; [exact demo_window_consistent|]. split; [reflexivity|].
  split; [exact Hwin|]. split; [exact Hlen|]. split; [exact Hcount|].
  exact (sampled_from_category tape_multinomial tape_multinomial_contract
           demo "04379243" 5 3 10 demo_world demo_window_consistent eq_refl
           Hwin Hlen Hcount).
Defined.

(** ** The layout of the paths *)

Lemma string_app_nonempty (a b : string) : a ≠ "" → a +:+ b ≠ "".
Proof. destruct a; [done|discriminate]. Qed.

Lemma path_join_step_plain (path b : string) :
  path ≠ "" → endswith_sep path = false → startswith_sep b = false →
  path_join_step path b = path +:+ "/" +:+ b.
Proof.
  intros Hne Hend Hb. unfold path_join_step.
  by rewrite Hb, Hend, (bool_decide_eq_false_2 (path = "")) by done.
Qed.

Lemma endswith_sep_component (path b : string) :
  b ≠ "" → endswith_sep (path +:+ "/" +:+ b) = endswith_sep b.
Proof.
  intros Hb. rewrite (endswith_sep_app path) by done.
  by apply (endswith_sep_app "/").
Qed.

Section Layout.

Context {G : Type}.
Implicit Types w : world G.

Lemma model_path_run (self : ShapeNetBase) (n : nat) (s m : string) w :
  synset_ids self !! n = Some s → model_ids self !! n = Some m →
  model_path self (Z.of_nat n) w
  = (inr (path_join (shapenet_dir self) [s; m; model_dir self]), w).
Proof.
  intros Hs Hm. unfold model_path.
  by rewrite bind_lift, (list_getitem_lookup _ _ _ Hs), bind_lift,
    (list_getitem_lookup _ _ _ Hm).
Qed.

(** X13. With a root directory that is not empty and does not end in the
    separator, and ids that are not empty and neither start nor end with
    the separator, the path of a model is root/synset/model/file. *)
Theorem model_path_layout (self : ShapeNetBase) (n : nat) (s m : string) w :
  synset_ids self !! n = Some s → model_ids self !! n = Some m →
  shapenet_dir self ≠ "" → endswith_sep (shapenet_dir self) = false →
  s ≠ "" → startswith_sep s = false → endswith_sep s = false →
  m ≠ "" → startswith_sep m = false → endswith_sep m = false →
  startswith_sep (model_dir self) = false →
  model_path self (Z.of_nat n) w
  = (inr (shapenet_dir self +:+ "/" +:+ s +:+ "/" +:+ m +:+ "/"
          +:+ model_dir self), w).
Proof.
  intros Hs Hm Hroot Hrend Hs0 Hs1 Hs2 Hm0 Hm1 Hm2 Hf.
  rewrite (model_path_run self n s m w Hs Hm).
  by rewrite path_join_layout.
Qed.

(** X14. With the root directory [__init__] sets, the empty string, the
    path of a model is relative: synset/model/file, with no separator in
    front. *)
Theorem model_path_empty_root (self : ShapeNetBase) (n : nat) (s m : string)
    w :
  synset_ids self !! n = Some s → model_ids self !! n = Some m →
  shapenet_dir self = "" →
  s ≠ "" → endswith_sep s = false →
  m ≠ "" → startswith_sep m = false → endswith_sep m = false →
  startswith_sep (model_dir self) = false →
  model_path self (Z.of_nat n) w
  = (inr (s +:+ "/" +:+ m +:+ "/" +:+ model_dir self), w)
  ∧ shapenet_dir __init__ = "".
Proof.
  intros Hs Hm Hroot Hs0 Hs2 Hm0 Hm1 Hm2 Hf.
  rewrite (model_path_run self n s m w Hs Hm), Hroot.
  split; [|done]. do 2 f_equal.
  unfold path_join. cbn [fold_left].
  assert (Hfirst : path_join_step "" s = s)
    by (unfold path_join_step; by destruct (startswith_sep s)).
  rewrite Hfirst, (path_join_step_plain s m) by done.
  rewrite path_join_step_plain;
    [by rewrite string_app_assoc
    |by apply string_app_nonempty
    |by rewrite endswith_sep_component
    |done].
Qed.

(** X15. A model id that starts with the separator takes the path over:
    the root directory and the synset id are dropped, and the path is the
    model id followed by the file name. *)
Theorem model_path_absolute_id (self : ShapeNetBase) (n : nat) (s m : string)
    w :
  synset_ids self !! n = Some s → model_ids self !! n = Some m →
  startswith_sep m = true → endswith_sep m = false →
  startswith_sep (model_dir self) = false →
  model_path self (Z.of_nat n) w
  = (inr (m +:+ "/" +:+ model_dir self), w).
Proof.
  intros Hs Hm Hm1 Hm2 Hf.
  rewrite (model_path_run self n s m w Hs Hm). do 2 f_equal.
  unfold path_join. cbn [fold_left].
  assert (Hsecond : ∀ path, path_join_step path m = m)
    by (intros path; unfold path_join_step; by rewrite Hm1).
  rewrite Hsecond. apply path_join_step_plain; [|done|done].
  by destruct m.
Qed.

End Layout.

Lemma model_path_layout_witness :
  synset_ids demo !! 7%nat = Some "04379243"
  ∧ model_ids demo !! 7%nat = Some "t2"
  ∧ shapenet_dir demo ≠ "" ∧ endswith_sep (shapenet_dir demo) = false
  ∧ model_path demo (Z.of_nat 7) demo_world
    = (inr (shapenet_dir demo +:+ "/" +:+ "04379243" +:+ "/" +:+ "t2" +:+ "/"
            +:+ model_dir demo), demo_world).
Proof.
  assert (Hroot : shapenet_dir demo ≠ "") by discriminate.
  split; [reflexivity|]. split; [reflexivity|]. split; [exact Hroot|].
  split; [reflexivity|].
  exact (model_path_layout demo 7 "04379243" "t2" demo_world eq_refl eq_refl
           Hroot eq_refl ltac:(discriminate) eq_refl eq_refl
           ltac:(discriminate) eq_refl eq_refl eq_refl).
Defined.

Lemma model_path_empty_root_witness :
  synset_ids demo_twice !! 0%nat = Some "03001627"
  ∧ model_ids demo_twice !! 0%nat = Some "m"
  ∧ shapenet_dir demo_twice = ""
  ∧ model_path demo_twice (Z.of_nat 0) demo_world
    = (inr ("03001627" +:+ "/" +:+ "m" +:+ "/" +:+ model_dir demo_twice),
       demo_world).
Proof.
  split; [reflexivity|]. split; [reflexivity|]. split; [reflexivity|].
  exact (proj1 (model_path_empty_root demo_twice 0 "03001627" "m" demo_world
                  eq_refl eq_refl eq_refl ltac:(discriminate) eq_refl
                  ltac:(discriminate) eq_refl eq_refl eq_refl)).
Defined.

Lemma model_path_absolute_id_witness :
  synset_ids demo_absolute !! 0%nat = Some "03001627"
  ∧ model_ids demo_absolute !! 0%nat = Some "/tmp/mesh"
  ∧ startswith_sep "/tmp/mesh" = true
  ∧ model_path demo_absolute (Z.of_nat 0) demo_world
    = (inr ("/tmp/mesh" +:+ "/" +:+ model_dir demo_absolute), demo_world).
Proof.
  split; [reflexivity|]. split; [reflexivity|]. split; [reflexivity|].
  exact (model_path_absolute_id demo_absolute 0 "03001627" "/tmp/mesh"
           demo_world eq_refl eq_refl eq_refl eq_refl eq_refl).
Defined.

(** ** A dataset with nothing loaded *)

Section Empty.

Context {G : Type}.
Variable multinomial : sampler G.
Implicit Types w : world G.

(** X16. On a dataset with no models and no synsets, as [__init__] leaves
    it, every request that supplies a selector is refused before anything
    is drawn or logged: model ids with the not-found [ValueError] for the
    first id, categories with a [ValueError] (lengths, or the first
    category unknown), indices with the out-of-bounds [IndexError]. *)
Theorem empty_dataset_rejects (self : ShapeNetBase)
    (ids cats : option (list string)) (sample_nums idxs : option (list Z)) w :
  model_ids self = [] → synset_inv self = ∅ →
  supplied ids = true ∨ supplied cats = true ∨ supplied idxs = true →
  (∃ msg,
     _handle_render_inputs multinomial self ids cats sample_nums idxs w
     = (inl (ValueError msg), w)
     ∧ (supplied ids = true ∨ supplied cats = true))
  ∨ (_handle_render_inputs multinomial self ids cats sample_nums idxs w
     = (inl (IndexError (out_of_bounds_msg self)), w)
     ∧ supplied ids = false ∧ supplied cats = false).
Proof.
  intros Hmodels Hinv Hsupplied.
  destruct (supplied ids) eqn:Hm.
  - destruct ids as [[|mid ids]|]; try discriminate.
    left. exists (not_found_msg mid). split; [|by left].
    unfold _handle_render_inputs, selected_idxs.
    cbn [supplied default id idxs_of_model_ids]. rewrite Hmodels.
    by rewrite bool_decide_eq_false_2 by (by intros ?%elem_of_nil).
  - destruct (supplied cats) eqn:Hc.
    + destruct cats as [[|c cats]|]; try discriminate. left.
      unfold _handle_render_inputs.
      rewrite selected_by_categories by done.
      destruct (decide (len (default [1] sample_nums) = len (c :: cats)
                        ∨ len (default [1] sample_nums) = 1)) as [Hok|Hbad].
      * exists (unknown_category_msg c). split; [|by right].
        rewrite by_categories_compatible by done.
        cbn [length seq idxs_of_categories].
        rewrite bind_assoc, bind_lift.
        change (list_getitem (c :: cats) (Z.of_nat 0)) with (@inr exn _ c).
        cbn beta iota.
        assert (Hres : resolve_category self c = c)
          by (unfold resolve_category, dict_get; by rewrite Hinv, lookup_empty).
        assert (Hunknown : known_synset self c = false).
        { unfold known_synset, dict_values.
          rewrite Hinv, map_to_list_empty.
          by apply bool_decide_eq_false_2; intros ?%elem_of_nil. }
        by rewrite Hres, Hunknown.
      * exists length_mismatch_msg. split; [|by right].
        by rewrite (bind_inl _ _ _ _ _
                      (by_categories_mismatch multinomial self (c :: cats)
                         sample_nums w ltac:(tauto) ltac:(tauto))).
    + destruct Hsupplied as [?|[?|Hi]]; try discriminate.
      destruct idxs as [[|i idxs]|]; try discriminate.
      right. split; [|done].
      unfold _handle_render_inputs, selected_idxs. rewrite Hm, Hc.
      cbn [supplied default id]. unfold by_idxs. cbn [existsb].
      rewrite Hmodels.
      assert (Hbad : (i <? 0) || (i >=? len (@nil string)) = true).
      { destruct (Z.ltb_spec i 0) as [?|?]; [done|].
        cbn [orb]. apply Z.geb_le. unfold len. cbn. lia. }
      by rewrite Hbad.
Qed.

End Empty.

Lemma empty_dataset_rejects_witness :
  model_ids __init__ = [] ∧ synset_inv __init__ = ∅
  ∧ (supplied (A := string) None = true
     ∨ supplied (Some ["chair"]) = true ∨ supplied (Some [0]) = true)
  ∧ ((∃ msg,
        _handle_render_inputs tape_multinomial __init__ None (Some ["chair"])
          (Some [2]) (Some [0]) demo_world
        = (inl (ValueError msg), demo_world)
        ∧ (supplied (A := string) None = true
           ∨ supplied (Some ["chair"]) = true))
     ∨ (_handle_render_inputs tape_multinomial __init__ None (Some ["chair"])
          (Some [2]) (Some [0]) demo_world
        = (inl (IndexError (out_of_bounds_msg __init__)), demo_world)
        ∧ supplied (A := string) None = false
        ∧ supplied (Some ["chair"]) = false)).
Proof.
  assert (Hsupplied : supplied (A := string) None = true
                      ∨ supplied (Some ["chair"]) = true
                        ∨ supplied (Some [0]) = true) by (right; by left).
  split; [reflexivity|]. split; [reflexivity|]. split; [exact Hsupplied|].
  exact (empty_dataset_rejects tape_multinomial __init__ None
           (Some ["chair"]) (Some [2]) (Some [0]) demo_world eq_refl eq_refl
           Hsupplied).
Defined.

(** ** Requests that sample, end to end *)

Section EndToEnd.

Context {G : Type}.
Variable multinomial : sampler G.
Hypothesis contract : multinomial_contract multinomial.
Implicit Types w : world G.

Lemma block_in_catalog (self : ShapeNetBase) (sample_nums : list Z) (i : nat)
    (token : string) (block : tensor) :
  window_consistent self →
  length (synset_ids self) = length (model_ids self) →
  block_of self sample_nums i token block →
  Forall (λ idx, valid_idx self idx
                 ∧ synset_ids self !! Z.to_nat idx
                   = Some (resolve_category self token)) block.
Proof.
  intros Hcons Hpar (start & range_len & _ & Hwin & Hin).
  inversion Hwin as [|c' s' l' Hs Hl]; subst.
  eapply Forall_impl; [exact Hin|]. cbn. intros idx Hidx.
  destruct (Hcons _ start range_len idx Hs Hl Hidx) as [Hpos Hsyn].
  split; [|done].
  unfold valid_idx, len. apply lookup_lt_Some in Hsyn. lia.
Qed.

(** X17. When the index tables agree with the catalog, a request by
    category whose categories can all be sampled (known synset, window of
    1 to [2^24] indices, count from 1 to below [2^63]) returns paths: one
    block
    of paths per category, in the order of the request, as many as the
    count of the category, each the path of a model of that category. *)
Theorem categories_paths (self : ShapeNetBase) (ids : option (list string))
    (cats : list string) (sample_nums idxs : option (list Z)) w :
  window_consistent self →
  length (synset_ids self) = length (model_ids self) →
  supplied ids = false → cats ≠ [] →
  len (default [1] sample_nums) = len cats
  ∨ len (default [1] sample_nums) = 1 →
  (∀ i token, cats !! i = Some token →
              samplable self (default [1] sample_nums) i token) →
  ∃ blocks w',
    _handle_render_inputs multinomial self ids (Some cats) sample_nums idxs w
      = (inr (path_of self <$> concat blocks), w')
    ∧ length blocks = length cats
    ∧ ∀ i block, blocks !! i = Some block →
        ∃ token,
          cats !! i = Some token
          ∧ count_for (default [1] sample_nums) i = inr (len block)
          ∧ Forall (λ idx, valid_idx self idx
                           ∧ synset_ids self !! Z.to_nat idx
                             = Some (resolve_category self token)) block.
Proof.
  intros Hcons Hpar Hm Hne Hlen Hgood.
  destruct (idxs_of_categories_blocks multinomial contract self cats
              (default [1] sample_nums) (length cats) 0 [] w)
    as (blocks & w' & Hrun & Hn & Hb).
  { intros i token _. apply Hgood. }
  { lia. }
  assert (Hblocks : ∀ i block, blocks !! i = Some block →
            ∃ token,
              cats !! i = Some token
              ∧ count_for (default [1] sample_nums) i = inr (len block)
              ∧ Forall (λ idx, valid_idx self idx
                               ∧ synset_ids self !! Z.to_nat idx
                                 = Some (resolve_category self token)) block).
  { intros i block Hi. destruct (Hb i block Hi) as (token & Htok & Hblock).
    exists token. split; [exact Htok|]. split.
    - by destruct Hblock as (start & range_len & Hk & _).
    - by eapply block_in_catalog. }
  assert (Hvalid : Forall (valid_idx self) (concat blocks)).
  { apply Forall_concat, Forall_lookup. intros i block Hi.
    destruct (Hblocks i block Hi) as (token & _ & _ & Hall).
    eapply Forall_impl; [exact Hall|]. by intros idx [? _]. }
  exists blocks, w'. split; [|by split].
  unfold _handle_render_inputs.
  rewrite selected_by_categories by done.
  rewrite by_categories_compatible by done.
  rewrite (bind_inr _ _ _ _ _ Hrun). by apply model_paths_valid.
Qed.

(** X18. With nothing supplied, on a dataset of 1 to [2^24] models that
    has one synset id per model id, the call returns exactly as many paths
    as the first count asks for (one when no counts are given; from 1 to
    below [2^63]), each the path of an index of the catalog. *)
Theorem default_paths (self : ShapeNetBase) (ids cats : option (list string))
    (sample_nums idxs : option (list Z)) (first : Z) w :
  length (synset_ids self) = length (model_ids self) →
  supplied ids = false → supplied cats = false → supplied idxs = false →
  head (default [1] sample_nums) = Some first →
  1 ≤ first < int64_bound → 1 ≤ __len__ self ≤ max_categories →
  ∃ sampled w',
    _handle_render_inputs multinomial self ids cats sample_nums idxs w
      = (inr (path_of self <$> sampled), w')
    ∧ len (path_of self <$> sampled) = first
    ∧ Forall (valid_idx self) sampled.
Proof.
  intros Hpar Hm Hc Hi Hfirst Hcount Hlen.
  destruct (by_default_run multinomial contract self sample_nums first w
              Hfirst Hcount Hlen)
    as (positions & g' & _ & Hk & Hin & Hrun).
  apply whole_range_valid in Hin.
  eexists _, _. split; [|split; [|exact Hin]].
  - unfold _handle_render_inputs, selected_idxs. rewrite Hm, Hc, Hi.
    rewrite (bind_inr _ _ _ _ _ Hrun). by apply model_paths_valid.
  - by rewrite !len_fmap.
Qed.

End EndToEnd.

(** Two chairs and ten tables, as paths. *)
Lemma categories_paths_witness :
  multinomial_contract tape_multinomial
  ∧ window_consistent demo
  ∧ length (synset_ids demo) = length (model_ids demo)
  ∧ supplied (A := string) None = false ∧ ["chair"; "table"] ≠ []
  ∧ (len (default [1] (Some [2; 10])) = len ["chair"; "table"]
     ∨ len (default [1] (Some [2; 10])) = 1)
  ∧ (∀ i token, ["chair"; "table"] !! i = Some token →
                samplable demo (default [1] (Some [2; 10])) i token)
  ∧ ∃ blocks w',
      _handle_render_inputs tape_multinomial demo None
        (Some ["chair"; "table"]) (Some [2; 10]) None demo_world
      = (inr (path_of demo <$> concat blocks), w')
      ∧ length blocks = length ["chair"; "table"]
      ∧ ∀ i block, blocks !! i = Some block →
          ∃ token,
            ["chair"; "table"] !! i = Some token
            ∧ count_for (default [1] (Some [2; 10])) i = inr (len block)
            ∧ Forall (λ idx, valid_idx demo idx
                             ∧ synset_ids demo !! Z.to_nat idx
                               = Some (resolve_category demo token)) block.
Proof.
  assert (Hne : ["chair"; "table"] ≠ []) by discriminate.
  assert (Hlen : len (default [1] (Some [2; 10])) = len ["chair"; "table"]
                 ∨ len (default [1] (Some [2; 10])) = 1) by (by left).
  split; [exact tape_multinomial_contract|].
  split; [exact demo_window_consistent|]. split; [reflexivity|].
  split; [reflexivity|]. split; [exact Hne|]. split; [exact Hlen|].
  split; [exact demo_samplable|].
  exact (categories_paths tape_multinomial tape_multinomial_contract demo
           None ["chair"; "table"] (Some [2; 10]) None demo_world
           demo_window_consistent eq_refl eq_refl Hne Hlen demo_samplable).
Defined.

Lemma default_paths_witness :
  multinomial_contract tape_multinomial
  ∧ length (synset_ids demo) = length (model_ids demo)
  ∧ head (default [1] (Some [12; 3])) = Some 12
  ∧ 1 ≤ 12 < int64_bound ∧ 1 ≤ __len__ demo ≤ max_categories
  ∧ ∃ sampled w',
      _handle_render_inputs tape_multinomial demo None None (Some [12; 3])
        None demo_world = (inr (path_of demo <$> sampled), w')
      ∧ len (path_of demo <$> sampled) = 12
      ∧ Forall (valid_idx demo) sampled.
Proof.
  assert (Hlen : 1 ≤ __len__ demo ≤ max_categories)
    by (unfold __len__, len, max_categories; cbn; lia).
  assert (Hcount : 1 ≤ 12 < int64_bound) by (unfold int64_bound; lia).
  split; [exact tape_multinomial_contract|]. split; [reflexivity|].
  split; [reflexivity|]. split; [exact Hcount|]. split; [exact Hlen|].
  exact (default_paths tape_multinomial tape_multinomial_contract demo None
           None (Some [12; 3]) None 12 demo_world eq_refl eq_refl eq_refl
           eq_refl eq_refl Hcount Hlen).
Defined.

(** ** Three more edges *)

Section Edges.

Context {G : Type}.
Variable multinomial : sampler G.
Implicit Types w : world G.

Lemma idxs_of_model_ids_first_absent (self : ShapeNetBase)
    (before after : list string) (bad : string) (acc : list Z) w :
  Forall (λ id, id ∈ model_ids self) before → bad ∉ model_ids self →
  idxs_of_model_ids (G := G) self (before ++ bad :: after) acc w
  = (inl (ValueError (not_found_msg bad)), w).
Proof.
  intros Hall Hbad. revert acc.
  induction Hall as [|mid before Hmid _ IH]; intros acc.
  - cbn [app idxs_of_model_ids]. by rewrite bool_decide_eq_false_2.
  - cbn [app idxs_of_model_ids]. rewrite bool_decide_eq_true_2 by done.
    destruct (list_index_elem mid (model_ids self) Hmid) as (i & Hi & _).
    rewrite bind_lift, Hi. apply IH.
Qed.

(** X19. A request by model id that names ids missing from the catalog
    raises for the first missing one, in the order of the request. *)
Theorem model_ids_first_absent (self : ShapeNetBase)
    (before after : list string) (bad : string)
    (cats : option (list string)) (sample_nums idxs : option (list Z)) w :
  Forall (λ id, id ∈ model_ids self) before → bad ∉ model_ids self →
  _handle_render_inputs multinomial self (Some (before ++ bad :: after)) cats
    sample_nums idxs w
  = (inl (ValueError (not_found_msg bad)), w).
Proof.
  intros Hall Hbad. unfold _handle_render_inputs.
  assert (Hsel : selected_idxs multinomial self
                   (Some (before ++ bad :: after)) cats sample_nums idxs w
                 = (inl (ValueError (not_found_msg bad)), w)).
  { unfold selected_idxs.
    replace (supplied (Some (before ++ bad :: after))) with true
      by (by destruct before).
    by apply idxs_of_model_ids_first_absent. }
  by rewrite (bind_inl _ _ _ _ _ Hsel).
Qed.

(** X20. With nothing else supplied, the counts after the first play no
    part: two requests with the same first count and further counts behind
    it are the same request. *)
Theorem default_ignores_later_counts (self : ShapeNetBase)
    (ids cats : option (list string)) (idxs : option (list Z))
    (first : Z) (rest1 rest2 : list Z) w :
  supplied ids = false → supplied cats = false → supplied idxs = false →
  rest1 ≠ [] → rest2 ≠ [] →
  _handle_render_inputs multinomial self ids cats (Some (first :: rest1))
    idxs w
  = _handle_render_inputs multinomial self ids cats (Some (first :: rest2))
      idxs w.
Proof.
  intros Hm Hc Hi H1 H2.
  assert (Hmany : ∀ rest : list Z,
            rest ≠ [] → (len (first :: rest) >? 1) = true).
  { intros [|x rest] Hrest; [done|]. apply Z.gtb_lt.
    unfold len. cbn [length]. lia. }
  unfold _handle_render_inputs, selected_idxs. rewrite Hm, Hc, Hi.
  unfold by_default. cbv zeta. by rewrite !Hmany by done.
Qed.

Hypothesis contract : multinomial_contract multinomial.

(** X21. Asking a window of 1 to [2^24] indices for more indices than it
    has (and fewer than [2^63]) gives some index more than once. *)
Theorem oversized_sample_repeats (self : ShapeNetBase)
    (category : option string) (start range_len count : Z) w :
  has_window self category start range_len →
  range_len ≤ max_categories → count < int64_bound →
  1 ≤ range_len < count →
  ∃ sampled w',
    _sample_idxs_from_category multinomial self count category w
      = (inr sampled, w')
    ∧ len sampled = count
    ∧ ¬ NoDup sampled.
Proof.
  intros Hwin Hmax Hfits Hcount.
  destruct (window_draw_any multinomial contract self category start
              range_len count w Hwin ltac:(lia) ltac:(lia))
    as (sampled & w' & Hrun & Hsize & Hin).
  exists sampled, w'. split; [exact Hrun|]. split; [exact Hsize|].
  intros Hnd.
  assert (Hsub : sampled ⊆+ seqZ start range_len).
  { apply NoDup_submseteq; [exact Hnd|]. intros idx Hidx.
    unfold idxs_in in Hin. rewrite Forall_forall in Hin.
    apply elem_of_seqZ. specialize (Hin idx Hidx). lia. }
  apply submseteq_length in Hsub. rewrite length_seqZ in Hsub.
  unfold len in Hsize. lia.
Qed.

End Edges.

Lemma model_ids_first_absent_witness :
  Forall (λ id, id ∈ model_ids demo) ["t1"] ∧ ("zz" ∉ model_ids demo)
  ∧ _handle_render_inputs tape_multinomial demo
      (Some (["t1"] ++ "zz" :: ["yy"])) None None None demo_world
    = (inl (ValueError (not_found_msg "zz")), demo_world).
Proof.
  assert (Hall : Forall (λ id, id ∈ model_ids demo) ["t1"])
    by (repeat constructor).
  assert (Hbad : "zz" ∉ model_ids demo).
  { intros Hin%list_elem_of_In. cbn in Hin.
    repeat (destruct Hin as [Hin|Hin]; [discriminate|]). exact Hin. }
  split; [exact Hall|]. split; [exact Hbad|].
  exact (model_ids_first_absent tape_multinomial demo ["t1"] ["yy"] "zz" None
           None None demo_world Hall Hbad).
Defined.

Lemma default_ignores_later_counts_witness :
  supplied (A := string) None = false ∧ supplied (A := Z) None = false
  ∧ [3] ≠ [] ∧ [0; -4] ≠ []
  ∧ _handle_render_inputs tape_multinomial demo None None (Some (2 :: [3]))
      None demo_world
    = _handle_render_inputs tape_multinomial demo None None
        (Some (2 :: [0; -4])) None demo_world.
Proof.
  assert (H1 : [3] ≠ []) by discriminate.
  assert (H2 : [0; -4] ≠ []) by discriminate.
  split; [reflexivity|]. split; [reflexivity|]. split; [exact H1|].
  split; [exact H2|].
  exact (default_ignores_later_counts tape_multinomial demo None None None 2
           [3] [0; -4] demo_world eq_refl eq_refl eq_refl H1 H2).
Defined.

Lemma oversized_sample_repeats_witness :
  multinomial_contract tape_multinomial
  ∧ has_window demo (Some "04379243") 5 3
  ∧ 3 ≤ max_categories ∧ 4 < int64_bound
  ∧ 1 ≤ 3 < 4
  ∧ ∃ sampled w',
      _sample_idxs_from_category tape_multinomial demo 4 (Some "04379243")
        demo_world = (inr sampled, w')
      ∧ len sampled = 4
      ∧ ¬ NoDup sampled.
Proof.
  assert (Hwin : has_window demo (Some "04379243") 5 3) by (by constructor).
  assert (Hmax : 3 ≤ max_categories) by (unfold max_categories; lia).
  assert (Hfits : 4 < int64_bound) by (unfold int64_bound; lia).
  assert (Hcount : 1 ≤ 3 < 4) by lia.
  split; [exact tape_multinomial_contract|]. split; [exact Hwin|].
  split; [exact Hmax|]. split; [exact Hfits|]. split; [exact Hcount|].
  exact (oversized_sample_repeats tape_multinomial tape_multinomial_contract
           demo (Some "04379243") 5 3 4 demo_world Hwin Hmax Hfits Hcount).
Defined.
